(** * disgo: gateway session, member chunking and guild availability

    A shallow embedding of three pieces of the disgo client library:

    - [core/cache_guild.go]: the guild cache with its unready and
      unavailable guild sets (module [GuildCache]);
    - [bot/member_chunking_manager.go]: correlation of guild member chunk
      events with pending requests (module [Chunking]);
    - [gateway/gateway_impl.go]: the gateway connection: open, close,
      send, heartbeat, identify/resume and the listen loop
      (module [Gateway]).

    Go maps are stdpp [gmap]s, nullable pointers are [option]s, Go's [int]
    and [time.Duration] are [Z] with the 64-bit wrap-around written out. *)

From Stdlib Require Import ZArith List Bool.
From stdpp Require Import base numbers option list strings gmap fin_maps.
From stdpp Require Import pretty.

Open Scope Z_scope.

(** ** Machine integers *)

(** Go's [int] on 64-bit targets and [int64]: two's complement wrap-around. *)
Definition wrap64 (z : Z) : Z := (z + 2 ^ 63) `mod` 2 ^ 64 - 2 ^ 63.

(** ** Outcomes of a call

    A call on state [S] either returns a value, blocks for ever (a lock
    that is never released, a channel nobody serves) or panics. The state
    reached is kept in all three cases. *)

Inductive Outcome (S A : Type) : Type :=
| Returned (a : A) (s : S)
| Blocked (s : S)
| Panicked (s : S).

Arguments Returned {S A} a s.
Arguments Blocked {S A} s.
Arguments Panicked {S A} s.

Definition M (S A : Type) : Type := S -> Outcome S A.

Definition ret {S A} (a : A) : M S A := fun s => Returned a s.

Definition bind {S A B} (m : M S A) (k : A -> M S B) : M S B :=
  fun s =>
    match m s with
    | Returned a s' => k a s'
    | Blocked s' => Blocked s'
    | Panicked s' => Panicked s'
    end.

Definition gets {S A} (f : S -> A) : M S A := fun s => Returned (f s) s.
Definition modify {S} (f : S -> S) : M S unit := fun s => Returned tt (f s).
Definition block {S A} : M S A := fun s => Blocked s.
Definition panic {S A} : M S A := fun s => Panicked s.

Declare Scope go_scope.
Delimit Scope go_scope with go.
Notation "x <- m ;; k" := (bind m (fun x => k))
  (at level 100, m at next level, right associativity) : go_scope.
Notation "m ;;; k" := (bind m (fun _ => k))
  (at level 100, right associativity) : go_scope.

Definition finalState {S A} (o : Outcome S A) : S :=
  match o with
  | Returned _ s => s
  | Blocked s => s
  | Panicked s => s
  end.

Definition returned {S A} (o : Outcome S A) : option A :=
  match o with
  | Returned a _ => Some a
  | _ => None
  end.

(** ** core/cache_guild.go *)

Module GuildCache.

(** [discord.Snowflake] is a string type in this package. *)
Definition Snowflake := string.

(** The [Guild] entity; only its identity matters to the cache. *)
Record Guild := mkGuild {
  guild_ID : Snowflake;
  guild_Name : string;
}.

(** [guildCacheImpl]. The three mutexes guard one map each and every
    method releases what it takes before it returns ([SetUnavailable]
    holds [unavailableGuildsMu] while [Remove] takes the distinct cache
    lock), so they are not part of the sequential state. *)
Record guildCacheImpl := mkCache {
  guilds : gmap string Guild;
  unreadyGuilds : gmap string unit;
  unavailableGuilds : gmap string unit;
}.

Definition NewGuildCache : guildCacheImpl :=
  {| guilds := ∅; unreadyGuilds := ∅; unavailableGuilds := ∅ |}.

Definition Get (c : guildCacheImpl) (guildID : Snowflake) : option Guild :=
  guilds c !! guildID.

Definition Remove (c : guildCacheImpl) (id : Snowflake) : guildCacheImpl :=
  {| guilds := delete id (guilds c);
     unreadyGuilds := unreadyGuilds c;
     unavailableGuilds := unavailableGuilds c |}.

Definition SetReady (c : guildCacheImpl) (guildID : Snowflake) : guildCacheImpl :=
  {| guilds := guilds c;
     unreadyGuilds := delete guildID (unreadyGuilds c);
     unavailableGuilds := unavailableGuilds c |}.

Definition SetUnready (c : guildCacheImpl) (guildID : Snowflake) : guildCacheImpl :=
  {| guilds := guilds c;
     unreadyGuilds := <[guildID := tt]> (unreadyGuilds c);
     unavailableGuilds := unavailableGuilds c |}.

Definition IsUnready (c : guildCacheImpl) (guildID : Snowflake) : bool :=
  match unreadyGuilds c !! guildID with
  | Some _ => true
  | None => false
  end.

Definition SetUnavailable (c : guildCacheImpl) (id : Snowflake) : guildCacheImpl :=
  let c1 := Remove c id in
  {| guilds := guilds c1;
     unreadyGuilds := unreadyGuilds c1;
     unavailableGuilds := <[id := tt]> (unavailableGuilds c1) |}.

Definition SetAvailable (c : guildCacheImpl) (guildID : Snowflake) : guildCacheImpl :=
  {| guilds := guilds c;
     unreadyGuilds := unreadyGuilds c;
     unavailableGuilds := delete guildID (unavailableGuilds c) |}.

Definition IsUnavailable (c : guildCacheImpl) (guildID : Snowflake) : bool :=
  match unavailableGuilds c !! guildID with
  | Some _ => true
  | None => false
  end.

(** The four mutators as a command language, to speak about every
    sequence of calls. *)
Inductive Op :=
| OpSetReady (guildID : Snowflake)
| OpSetUnready (guildID : Snowflake)
| OpSetUnavailable (guildID : Snowflake)
| OpSetAvailable (guildID : Snowflake).

Definition apply (c : guildCacheImpl) (o : Op) : guildCacheImpl :=
  match o with
  | OpSetReady g => SetReady c g
  | OpSetUnready g => SetUnready c g
  | OpSetUnavailable g => SetUnavailable c g
  | OpSetAvailable g => SetAvailable c g
  end.

(** Calls are made in list order, head first. *)
Definition run (ops : list Op) (c : guildCacheImpl) : guildCacheImpl :=
  fold_left apply ops c.

(** What the call history says about one guild: the flag [b] before the
    calls, flipped by each call that names the guild. *)
Definition unreadyStep (p : Snowflake) (b : bool) (o : Op) : bool :=
  match o with
  | OpSetUnready g => if decide (g = p) then true else b
  | OpSetReady g => if decide (g = p) then false else b
  | _ => b
  end.

Definition unavailableStep (p : Snowflake) (b : bool) (o : Op) : bool :=
  match o with
  | OpSetUnavailable g => if decide (g = p) then true else b
  | OpSetAvailable g => if decide (g = p) then false else b
  | _ => b
  end.

Definition lastUnready (p : Snowflake) (ops : list Op) (b : bool) : bool :=
  fold_left (unreadyStep p) ops b.

Definition lastUnavailable (p : Snowflake) (ops : list Op) (b : bool) : bool :=
  fold_left (unavailableStep p) ops b.

(** *** The rest of the cache interface *)

(** [Set] (a reserved word here, hence [Set_]): [missingGuildsFlag] is the answer of
    [c.cacheFlags.Missing(CacheFlagGuilds)]. A guild that is cached
    already is overwritten in place, a new one is stored; either way the
    guild returned has the content given. *)
Definition Set_ (missingGuildsFlag : bool) (c : guildCacheImpl) (guild : Guild)
    : guildCacheImpl * Guild :=
  if missingGuildsFlag then (c, guild)
  else
    match guilds c !! guild_ID guild with
    | Some _ =>
        ({| guilds := <[guild_ID guild := guild]> (guilds c);
            unreadyGuilds := unreadyGuilds c;
            unavailableGuilds := unavailableGuilds c |}, guild)
    | None =>
        ({| guilds := <[guild_ID guild := guild]> (guilds c);
            unreadyGuilds := unreadyGuilds c;
            unavailableGuilds := unavailableGuilds c |}, guild)
    end.

Definition GetCopy (c : guildCacheImpl) (guildID : Snowflake) : option Guild :=
  match Get c guildID with
  | Some guild => Some guild
  | None => None
  end.

(** Go ranges over a map in an order it does not specify; the lists
    below come in the order of [map_to_list], one of the possible ones. *)
Definition All (c : guildCacheImpl) : list Guild :=
  (map_to_list (guilds c)).*2.

Fixpoint findFirst (guildFindFunc : Guild -> bool) (gs : list Guild) : option Guild :=
  match gs with
  | [] => None
  | gui :: rest => if guildFindFunc gui then Some gui else findFirst guildFindFunc rest
  end.

Definition FindFirst (c : guildCacheImpl) (guildFindFunc : Guild -> bool) : option Guild :=
  findFirst guildFindFunc (map_to_list (guilds c)).*2.

Definition FindAll (c : guildCacheImpl) (guildFindFunc : Guild -> bool) : list Guild :=
  List.filter guildFindFunc (map_to_list (guilds c)).*2.

Definition UnreadyGuilds (c : guildCacheImpl) : list Snowflake :=
  (map_to_list (unreadyGuilds c)).*1.

Definition UnavailableGuilds (c : guildCacheImpl) : list Snowflake :=
  (map_to_list (unavailableGuilds c)).*1.

End GuildCache.

(** ** bot/member_chunking_manager.go *)

Module Chunking.

(** [snowflake.ID] is a [uint64]. *)
Definition ID := N.

Record User := mkUser { User_ID : ID; User_Username : string }.
Record Member := mkMember { Member_User : User; Member_Nick : string }.

(** [discord.GatewayEventGuildMembersChunk], the fields the manager reads. *)
Record GatewayEventGuildMembersChunk := mkChunk {
  GuildID : ID;
  Members : list Member;
  ChunkIndex : Z;
  ChunkCount : Z;
  Nonce : string;
}.

(** A channel of members, seen from the sending side: what has been
    handed to the receiver so far and whether it has been closed. The
    channel is unbuffered; a send is taken to meet its receiver. *)
Record chanState := mkChan { received : list Member; closed : bool }.

(** [chunkingRequest]. [memberChan] names a channel in the store. The
    request object is reached through its map entry and through the
    cancel closure, which reads the immutable [nonce] and [memberChan]
    only, so the entry holds the record itself. *)
Record chunkingRequest := mkRequest {
  nonce : string;
  memberChan : nat;
  memberFilterFunc : option (Member -> bool);
  chunks : Z;
}.

(** [discord.GatewayMessageDataRequestGuildMembers]. *)
Record RequestGuildMembers := mkCommand {
  cmd_GuildID : ID;
  cmd_Query : option string;
  cmd_Limit : option Z;
  cmd_Presences : bool;
  cmd_UserIDs : list ID;
  cmd_Nonce : string;
}.

(** The manager's map together with what it acts on: the channels it
    created, the member cache of the client and the commands handed to
    the shard. *)
Record World := mkWorld {
  chunkingRequests : gmap string chunkingRequest;
  chans : gmap nat chanState;
  nextChan : nat;
  memberCache : gmap (N * N) Member;
  commands : list RequestGuildMembers;
}.

Definition NewMemberChunkingManager : World :=
  {| chunkingRequests := ∅; chans := ∅; nextChan := 0%nat;
     memberCache := ∅; commands := [] |}.

Definition setRequests (f : gmap string chunkingRequest -> gmap string chunkingRequest)
    (w : World) : World :=
  {| chunkingRequests := f (chunkingRequests w); chans := chans w;
     nextChan := nextChan w; memberCache := memberCache w;
     commands := commands w |}.

Definition setChans (f : gmap nat chanState -> gmap nat chanState) (w : World) : World :=
  {| chunkingRequests := chunkingRequests w; chans := f (chans w);
     nextChan := nextChan w; memberCache := memberCache w;
     commands := commands w |}.

(** [m.client.Caches().Members().Put(guildID, userID, member)] *)
Definition cachePut (guildID userID : ID) (member : Member) : M World unit :=
  modify (fun w =>
    {| chunkingRequests := chunkingRequests w; chans := chans w;
       nextChan := nextChan w;
       memberCache := <[(guildID, userID) := member]> (memberCache w);
       commands := commands w |}).

(** [ch <- member]: a send on a closed channel panics, a send on a nil
    channel blocks for ever. *)
Definition chanSend (ch : nat) (member : Member) : M World unit :=
  fun w =>
    match chans w !! ch with
    | None => Blocked w
    | Some st =>
        if closed st then Panicked w
        else Returned tt
               (setChans <[ch := {| received := received st ++ [member];
                                    closed := false |}]> w)
    end.

(** [close(ch)]: closing a closed or nil channel panics. *)
Definition chanClose (ch : nat) : M World unit :=
  fun w =>
    match chans w !! ch with
    | None => Panicked w
    | Some st =>
        if closed st then Panicked w
        else Returned tt
               (setChans <[ch := {| received := received st; closed := true |}]> w)
    end.

(** [make(chan discord.Member)] *)
Definition chanMake : M World nat :=
  fun w =>
    Returned (nextChan w)
      {| chunkingRequests := chunkingRequests w;
         chans := <[nextChan w := {| received := []; closed := false |}]> (chans w);
         nextChan := S (nextChan w); memberCache := memberCache w;
         commands := commands w |}.

Definition cleanupRequest (request : chunkingRequest) : M World unit :=
  (chanClose (memberChan request) ;;;
   modify (setRequests (delete (nonce request))))%go.

(** The [for _, member := range payload.Members] loop of [HandleChunk]. *)
Fixpoint deliver (guildID : ID) (request : chunkingRequest) (members : list Member)
    : M World unit :=
  match members with
  | [] => ret tt
  | member :: rest =>
      (cachePut guildID (User_ID (Member_User member)) member ;;;
       match memberFilterFunc request with
       | Some f => if f member then chanSend (memberChan request) member else ret tt
       | None => chanSend (memberChan request) member
       end ;;;
       deliver guildID request rest)%go
  end.

Definition HandleChunk (payload : GatewayEventGuildMembersChunk) : M World unit :=
  fun w =>
    match chunkingRequests w !! Nonce payload with
    | None => Returned tt w
    | Some request =>
        (deliver (GuildID payload) request (Members payload) ;;;
         if chunks request =? wrap64 (ChunkCount payload - 1)
         then cleanupRequest request
         else modify (setRequests
                <[Nonce payload :=
                    {| nonce := nonce request; memberChan := memberChan request;
                       memberFilterFunc := memberFilterFunc request;
                       chunks := wrap64 (chunks request + 1) |}]>))%go w
    end.

(** What [requestGuildMembersChan] asks of the client: the shard of the
    guild (or the lookup error), its intents, and the outcome of
    [shard.Send]. *)
Inductive Error :=
| ErrShardNotFound
| ErrNoGuildMembersIntent
| ErrSend.

Record Shard := mkShard {
  hasGuildMembers : bool;
  hasGuildPresences : bool;
  sendError : option Error;
}.

(** The nonce loop: draws of [insecurerandstr.RandStr(32)] are tried in
    turn until one is not a key of the map. [None]: every draw given was
    taken. *)
Fixpoint pickNonce (draws : list string) (reqs : gmap string chunkingRequest)
    : option string :=
  match draws with
  | [] => None
  | n :: rest =>
      match reqs !! n with
      | Some _ => pickNonce rest reqs
      | None => Some n
      end
  end.

(** The result triple of [requestGuildMembersChan]; the cancel closure
    is [cleanupRequest] on the request it captured. *)
Record Opened := mkOpened {
  opened_chan : option nat;
  opened_cancel : option chunkingRequest;
  opened_err : option Error;
}.

Definition requestGuildMembersChan (shard : Error + Shard) (draws : list string)
    (guildID : ID) (query : option string) (limit : option Z) (userIDs : list ID)
    (filter : option (Member -> bool)) : M World Opened :=
  match shard with
  | inl err => ret {| opened_chan := None; opened_cancel := None; opened_err := Some err |}
  | inr sh =>
      if negb (hasGuildMembers sh)
      then ret {| opened_chan := None; opened_cancel := None;
                  opened_err := Some ErrNoGuildMembersIntent |}
      else
        (reqs <- gets chunkingRequests ;;
         match pickNonce draws reqs with
         | None => block
         | Some n =>
             ch <- chanMake ;;
             let request := {| nonce := n; memberChan := ch;
                               memberFilterFunc := filter; chunks := 0 |} in
             modify (setRequests <[n := request]>) ;;;
             modify (fun w =>
               {| chunkingRequests := chunkingRequests w; chans := chans w;
                  nextChan := nextChan w; memberCache := memberCache w;
                  commands := commands w ++
                    [{| cmd_GuildID := guildID; cmd_Query := query;
                        cmd_Limit := limit;
                        cmd_Presences := hasGuildPresences sh;
                        cmd_UserIDs := userIDs; cmd_Nonce := n |}] |}) ;;;
             ret {| opened_chan := Some ch; opened_cancel := Some request;
                    opened_err := sendError sh |}
         end)%go
  end.

(** *** Observations on chunk handling *)





End Chunking.


(** ** gateway/gateway_impl.go *)

Module Gateway.

(** *** Constants of the packages the gateway imports *)

(** gorilla/websocket message types and close codes. *)
Definition TextMessage : Z := 1.
Definition BinaryMessage : Z := 2.
Definition CloseMessage : Z := 8.
Definition CloseNormalClosure : Z := 1000.
Definition CloseGoingAway : Z := 1001.
Definition CloseServiceRestart : Z := 1012.

(** [discord.GatewayCloseEventCode] values tested by [listen]. *)
Definition GatewayCloseEventCodeInvalidSeq : Z := 4007.
Definition GatewayCloseEventCodeDisallowedIntents : Z := 4014.

(** [time.Millisecond] in nanoseconds, the unit of [time.Duration]. *)
Definition Millisecond : Z := 1000000.

(** [gateway.Status] *)
Inductive Status :=
| StatusUnconnected
| StatusConnecting
| StatusWaitingForHello
| StatusIdentifying
| StatusResuming
| StatusWaitingForReady
| StatusReady
| StatusDisconnected.

(** [discord.GatewayOpcode] *)
Inductive GatewayOpcode :=
| GatewayOpcodeDispatch
| GatewayOpcodeHeartbeat
| GatewayOpcodeIdentify
| GatewayOpcodePresenceUpdate
| GatewayOpcodeVoiceStateUpdate
| GatewayOpcodeResume
| GatewayOpcodeReconnect
| GatewayOpcodeRequestGuildMembers
| GatewayOpcodeInvalidSession
| GatewayOpcodeHello
| GatewayOpcodeHeartbeatACK.

(** The opcodes the gateway itself sends during the handshake and to keep
    the session alive; the others a client may send are application
    commands. *)
Definition protocolInternal (op : GatewayOpcode) : bool :=
  match op with
  | GatewayOpcodeHeartbeat | GatewayOpcodeIdentify | GatewayOpcodeResume => true
  | _ => false
  end.

Definition applicationCommand (op : GatewayOpcode) : bool :=
  match op with
  | GatewayOpcodePresenceUpdate | GatewayOpcodeVoiceStateUpdate
  | GatewayOpcodeRequestGuildMembers => true
  | _ => false
  end.

Inductive error :=
| ErrGatewayAlreadyConnected
| ErrShardNotConnected
| ErrOther (msg : string).

#[global] Instance error_eq_dec : EqDecision error.
Proof. solve_decision. Defined.

(** Encoded frames, [[]byte]. *)
Definition bytes := string.

(** [discord.GatewayMessageDataIdentify] *)
Record Identify := mkIdentify {
  id_Token : string;
  id_OS : string;
  id_Browser : string;
  id_Device : string;
  id_Compress : bool;
  id_LargeThreshold : Z;
  id_GatewayIntents : Z;
  id_Presence : option string;
  id_Shard : option (Z * Z);
}.

(** [discord.GatewayMessageData], one variant per payload type. *)
Inductive GatewayMessageData :=
| DataHello (HeartbeatInterval : Z)
| DataDispatch (raw : bytes)
| DataHeartbeat (seq : option Z)
| DataIdentify (d : Identify)
| DataResume (Token SessionID : string) (Seq : Z)
| DataInvalidSession (canResume : bool)
| DataCommand (raw : bytes)
| DataNil.

(** [discord.GatewayMessage] *)
Record GatewayMessage := mkMessage {
  Op : GatewayOpcode;
  S : Z;
  T : string;
  D : GatewayMessageData;
}.

Definition GatewayEventTypeReady : string := "READY".

(** [*websocket.Conn]: connections are told apart by a number. *)
Definition Conn := nat.

(** [*time.Ticker]: created at [created], it ticks every [period]
    nanoseconds, the first time one period after its creation. *)
Record Ticker := mkTicker { created : Z; period : Z }.



(** [gateway.Config], the fields the implementation reads or writes. *)
Record Config := mkConfig {
  ShardID : Z;
  ShardCount : Z;
  SessionID : option string;
  LastSequenceReceived : option Z;
  AutoReconnect : bool;
  MaxReconnectTries : Z;
  GatewayIntents : Z;
  Compress : bool;
  LargeThreshold : Z;
  Presence : option string;
  OS : string;
  Browser : string;
  Device : string;
}.

(** [gatewayImpl]. [connMu] is [true] while the mutex is held.
    [closeHandlerFunc] is kept as the fact that it is not nil. *)
Record gatewayImpl := mkGateway {
  config : Config;
  hasCloseHandler : bool;
  token : string;
  conn : option Conn;
  connMu : bool;
  heartbeatTicker : option Ticker;
  status : Status;
  heartbeatInterval : Z;
  lastHeartbeatSent : Z;
  lastHeartbeatReceived : Z;
}.

(** What a call does to the outside, in order. *)
Inductive Effect :=
| EffDial
| EffWriteMessage (c : Conn) (messageType : Z) (data : bytes)
| EffWriteClose (c : Conn) (code : Z) (message : string)
| EffConnClose (c : Conn)
| EffRateLimiterReset
| EffRateLimiterClose
| EffRateLimiterWait
| EffRateLimiterUnlock
| EffTickerStop (t : Ticker)
| EffGoListen (c : Conn)
| EffGoHeartbeat
| EffGoReconnect
| EffGoCloseHandler
| EffEventHandler (t : string) (s : Z) (shardID : Z) (data : bytes).

(** The gateway and the effects performed so far. *)
Record World := mkWorld { gw : gatewayImpl; trace : list Effect }.

(** What the outside answers during one call. *)
Inductive ReadError :=
| CloseError (code : Z) (text : string)
| NetErrClosed
| OtherReadError.

Record Env := mkEnv {
  dial : error + Conn;
  rlWait : option error;
  connWrite : option error;
  now : Z;
  jsonMarshal : GatewayOpcode -> GatewayMessageData -> error + bytes;
  readySessionID : bytes -> option string;
  ShouldReconnect : Z -> bool;
}.

(** *** Field updates *)

Definition setSession (sid : option string) (seq : option Z) (c : Config) : Config :=
  {| ShardID := ShardID c; ShardCount := ShardCount c;
     SessionID := sid; LastSequenceReceived := seq;
     AutoReconnect := AutoReconnect c; MaxReconnectTries := MaxReconnectTries c;
     GatewayIntents := GatewayIntents c; Compress := Compress c;
     LargeThreshold := LargeThreshold c; Presence := Presence c;
     OS := OS c; Browser := Browser c; Device := Device c |}.

Definition withConfig (f : Config -> Config) (g : gatewayImpl) : gatewayImpl :=
  {| config := f (config g); hasCloseHandler := hasCloseHandler g; token := token g;
     conn := conn g; connMu := connMu g; heartbeatTicker := heartbeatTicker g;
     status := status g; heartbeatInterval := heartbeatInterval g;
     lastHeartbeatSent := lastHeartbeatSent g;
     lastHeartbeatReceived := lastHeartbeatReceived g |}.

Definition withConn (c : option Conn) (g : gatewayImpl) : gatewayImpl :=
  {| config := config g; hasCloseHandler := hasCloseHandler g; token := token g;
     conn := c; connMu := connMu g; heartbeatTicker := heartbeatTicker g;
     status := status g; heartbeatInterval := heartbeatInterval g;
     lastHeartbeatSent := lastHeartbeatSent g;
     lastHeartbeatReceived := lastHeartbeatReceived g |}.

Definition withConnMu (b : bool) (g : gatewayImpl) : gatewayImpl :=
  {| config := config g; hasCloseHandler := hasCloseHandler g; token := token g;
     conn := conn g; connMu := b; heartbeatTicker := heartbeatTicker g;
     status := status g; heartbeatInterval := heartbeatInterval g;
     lastHeartbeatSent := lastHeartbeatSent g;
     lastHeartbeatReceived := lastHeartbeatReceived g |}.

Definition withTicker (t : option Ticker) (g : gatewayImpl) : gatewayImpl :=
  {| config := config g; hasCloseHandler := hasCloseHandler g; token := token g;
     conn := conn g; connMu := connMu g; heartbeatTicker := t;
     status := status g; heartbeatInterval := heartbeatInterval g;
     lastHeartbeatSent := lastHeartbeatSent g;
     lastHeartbeatReceived := lastHeartbeatReceived g |}.

Definition withStatus (s : Status) (g : gatewayImpl) : gatewayImpl :=
  {| config := config g; hasCloseHandler := hasCloseHandler g; token := token g;
     conn := conn g; connMu := connMu g; heartbeatTicker := heartbeatTicker g;
     status := s; heartbeatInterval := heartbeatInterval g;
     lastHeartbeatSent := lastHeartbeatSent g;
     lastHeartbeatReceived := lastHeartbeatReceived g |}.

Definition withInterval (d : Z) (g : gatewayImpl) : gatewayImpl :=
  {| config := config g; hasCloseHandler := hasCloseHandler g; token := token g;
     conn := conn g; connMu := connMu g; heartbeatTicker := heartbeatTicker g;
     status := status g; heartbeatInterval := d;
     lastHeartbeatSent := lastHeartbeatSent g;
     lastHeartbeatReceived := lastHeartbeatReceived g |}.

Definition withLastSent (t : Z) (g : gatewayImpl) : gatewayImpl :=
  {| config := config g; hasCloseHandler := hasCloseHandler g; token := token g;
     conn := conn g; connMu := connMu g; heartbeatTicker := heartbeatTicker g;
     status := status g; heartbeatInterval := heartbeatInterval g;
     lastHeartbeatSent := t;
     lastHeartbeatReceived := lastHeartbeatReceived g |}.

Definition withLastReceived (t : Z) (g : gatewayImpl) : gatewayImpl :=
  {| config := config g; hasCloseHandler := hasCloseHandler g; token := token g;
     conn := conn g; connMu := connMu g; heartbeatTicker := heartbeatTicker g;
     status := status g; heartbeatInterval := heartbeatInterval g;
     lastHeartbeatSent := lastHeartbeatSent g;
     lastHeartbeatReceived := t |}.

Definition getG {A} (f : gatewayImpl -> A) : M World A := gets (fun w => f (gw w)).

Definition modG (f : gatewayImpl -> gatewayImpl) : M World unit :=
  modify (fun w => {| gw := f (gw w); trace := trace w |}).

Definition emit (e : Effect) : M World unit :=
  modify (fun w => {| gw := gw w; trace := trace w ++ [e] |}).

(** [g.connMu.Lock()]: [sync.Mutex] is not reentrant; locking a mutex
    that is held blocks until it is released. *)
Definition lock : M World unit :=
  fun w => if connMu (gw w) then Blocked w
           else Returned tt {| gw := withConnMu true (gw w); trace := trace w |}.

Definition unlock : M World unit := modG (withConnMu false).

(** *** Operations *)

Section WithEnv.

Variable e : Env.

Definition CloseWithCode (code : Z) (message : string) : M World unit :=
  (t <- getG heartbeatTicker ;;
   match t with
   | Some tk => emit (EffTickerStop tk) ;;; modG (withTicker None)
   | None => ret tt
   end ;;;
   lock ;;;
   c <- getG conn ;;
   match c with
   | Some cn =>
       emit EffRateLimiterClose ;;;
       emit (EffWriteClose cn code message) ;;;
       emit (EffConnClose cn) ;;;
       modG (withConn None) ;;;
       if (code =? CloseNormalClosure) || (code =? CloseGoingAway)
       then modG (withConfig (setSession None None))
       else ret tt
   | None => ret tt
   end ;;;
   unlock)%go.

Definition Close : M World unit :=
  CloseWithCode CloseNormalClosure "Shutting down".

Definition Open : M World (option error) :=
  (lock ;;;
   c <- getG conn ;;
   match c with
   | Some _ => unlock ;;; ret (Some ErrGatewayAlreadyConnected)
   | None =>
       modG (withStatus StatusConnecting) ;;;
       modG (withLastSent (now e)) ;;;
       emit EffDial ;;;
       match dial e with
       | inl err => Close ;;; unlock ;;; ret (Some err)
       | inr cn =>
           modG (withConn (Some cn)) ;;;
           emit EffRateLimiterReset ;;;
           modG (withStatus StatusWaitingForHello) ;;;
           emit (EffGoListen cn) ;;;
           unlock ;;;
           ret None
       end
   end)%go.

Definition GetStatus : M World Status :=
  (lock ;;; s <- getG status ;; unlock ;;; ret s)%go.

Definition send (messageType : Z) (data : bytes) : M World (option error) :=
  (lock ;;;
   c <- getG conn ;;
   match c with
   | None => unlock ;;; ret (Some ErrShardNotConnected)
   | Some cn =>
       emit EffRateLimiterWait ;;;
       match rlWait e with
       | Some err => unlock ;;; ret (Some err)
       | None =>
           emit (EffWriteMessage cn messageType data) ;;;
           emit EffRateLimiterUnlock ;;;
           unlock ;;;
           ret (connWrite e)
       end
   end)%go.

Definition Send (op : GatewayOpcode) (d : GatewayMessageData) : M World (option error) :=
  match jsonMarshal e op d with
  | inl err => ret (Some err)
  | inr data => send TextMessage data
  end.

Definition Latency (g : gatewayImpl) : Z :=
  wrap64 (lastHeartbeatReceived g - lastHeartbeatSent g).

(** [heartbeat] up to its loop: [time.NewTicker] panics on a period that
    is not positive. Each tick of the ticker then runs [sendHeartbeat]. *)
Definition heartbeat : M World unit :=
  (d <- getG heartbeatInterval ;;
   if d <=? 0 then panic
   else modG (withTicker (Some {| created := now e; period := d |})))%go.

Definition sendHeartbeat : M World unit :=
  (seq <- getG (fun g => LastSequenceReceived (config g)) ;;
   err <- Send GatewayOpcodeHeartbeat (DataHeartbeat seq) ;;
   match err with
   | Some er =>
       if decide (er = ErrShardNotConnected)
       then modG (withLastSent (now e))
       else CloseWithCode CloseServiceRestart "heartbeat timeout" ;;;
            emit EffGoReconnect
   | None => modG (withLastSent (now e))
   end)%go.

Definition identifyData (g : gatewayImpl) : Identify :=
  {| id_Token := token g;
     id_OS := OS (config g);
     id_Browser := Browser (config g);
     id_Device := Device (config g);
     id_Compress := Compress (config g);
     id_LargeThreshold := LargeThreshold (config g);
     id_GatewayIntents := GatewayIntents (config g);
     id_Presence := Presence (config g);
     id_Shard := if ShardCount (config g) >? 1
                 then Some (ShardID (config g), ShardCount (config g))
                 else None |}.

Definition identify : M World unit :=
  (modG (withStatus StatusIdentifying) ;;;
   d <- getG identifyData ;;
   _ <- Send GatewayOpcodeIdentify (DataIdentify d) ;;
   modG (withStatus StatusWaitingForReady))%go.

(** [resume] dereferences both pointers; a nil one panics. *)
Definition resume : M World unit :=
  (modG (withStatus StatusResuming) ;;;
   g <- getG id ;;
   match SessionID (config g), LastSequenceReceived (config g) with
   | Some sid, Some seq =>
       _ <- Send GatewayOpcodeResume (DataResume (token g) sid seq) ;;
       ret tt
   | _, _ => panic
   end)%go.

(** How an iteration of the [listen] loop ends. *)
Inductive LoopCtl := Continue | Break | Return.

(** The [switch event.Op] of [listen]. A payload of another type than
    the opcode's makes the type assertion panic. *)
Definition handleEvent (event : GatewayMessage) : M World LoopCtl :=
  match Op event with
  | GatewayOpcodeHello =>
      (modG (withLastReceived (now e)) ;;;
       emit EffGoHeartbeat ;;;
       match D event with
       | DataHello interval =>
           modG (withInterval (wrap64 (interval * Millisecond))) ;;;
           g <- getG id ;;
           match LastSequenceReceived (config g), SessionID (config g) with
           | Some _, Some _ => resume
           | _, _ => identify
           end ;;;
           ret Continue
       | _ => panic
       end)%go
  | GatewayOpcodeDispatch =>
      match D event with
      | DataDispatch data =>
          (modG (withConfig (fun c => setSession (SessionID c) (Some (S event)) c)) ;;;
           if decide (T event = GatewayEventTypeReady)
           then
             match readySessionID e data with
             | None => ret Continue
             | Some sid =>
                 modG (withConfig (fun c => setSession (Some sid) (LastSequenceReceived c) c)) ;;;
                 modG (withStatus StatusReady) ;;;
                 shard <- getG (fun g => ShardID (config g)) ;;
                 emit (EffEventHandler (T event) (S event) shard data) ;;;
                 ret Continue
             end
           else
             shard <- getG (fun g => ShardID (config g)) ;;
             emit (EffEventHandler (T event) (S event) shard data) ;;;
             ret Continue)%go
      | _ => panic
      end
  | GatewayOpcodeHeartbeat => (sendHeartbeat ;;; ret Continue)%go
  | GatewayOpcodeReconnect =>
      (CloseWithCode CloseServiceRestart "received reconnect" ;;;
       emit EffGoReconnect ;;;
       ret Break)%go
  | GatewayOpcodeInvalidSession =>
      match D event with
      | DataInvalidSession canResume =>
          (if canResume then ret tt
           else modG (withConfig (setSession None None))) ;;;
          CloseWithCode (if canResume then CloseServiceRestart else CloseNormalClosure)
            "invalid session" ;;;
          emit EffGoReconnect ;;;
          ret Break
      | _ => panic
      end%go
  | GatewayOpcodeHeartbeatACK =>
      (modG (withLastReceived (now e)) ;;; ret Continue)%go
  | _ => ret Continue
  end.

(** The [err != nil] branch of [listen] after [conn.NextReader]. *)
Definition handleReadError (cn : Conn) (err : ReadError) : M World LoopCtl :=
  (lock ;;;
   c <- getG conn ;;
   unlock ;;;
   if negb (bool_decide (c = Some cn)) then ret Return
   else
     (match err with
      | CloseError code _ =>
          if code =? GatewayCloseEventCodeDisallowedIntents then ret tt
          else if code =? GatewayCloseEventCodeInvalidSeq
          then modG (withConfig (setSession None None))
          else ret tt
      | _ => ret tt
      end ;;;
      let reconnect :=
        match err with
        | CloseError code _ => ShouldReconnect e code
        | NetErrClosed => false
        | OtherReadError => true
        end in
      auto <- getG (fun g => AutoReconnect (config g)) ;;
      (if auto && reconnect then emit EffGoReconnect
       else
         Close ;;;
         h <- getG hasCloseHandler ;;
         if h then emit EffGoCloseHandler else ret tt) ;;;
      ret Break))%go.

(** What [conn.NextReader] and [parseGatewayMessage] give one iteration. *)
Inductive ReadResult :=
| ReadFailed (err : ReadError)
| ParseFailed
| Parsed (event : GatewayMessage).

Definition listenStep (cn : Conn) (r : ReadResult) : M World LoopCtl :=
  match r with
  | ReadFailed err => handleReadError cn err
  | ParseFailed => ret Continue
  | Parsed event => handleEvent event
  end.

(** [listen] on the reads given; when they are used up the loop is
    waiting in [conn.NextReader]. *)
Fixpoint listen (cn : Conn) (reads : list ReadResult) : M World LoopCtl :=
  match reads with
  | [] => ret Continue
  | r :: rest =>
      (ctl <- listenStep cn r ;;
       match ctl with
       | Continue => listen cn rest
       | _ => ret ctl
       end)%go
  end.

End WithEnv.

(** [gateway.New]; the configuration is the caller's. *)
Definition New (tok : string) (hasClose : bool) (cfg : Config) : gatewayImpl :=
  {| config := cfg; hasCloseHandler := hasClose; token := tok;
     conn := None; connMu := false; heartbeatTicker := None;
     status := StatusUnconnected; heartbeatInterval := 0;
     lastHeartbeatSent := 0; lastHeartbeatReceived := 0 |}.

Definition start (g : gatewayImpl) : World := {| gw := g; trace := [] |}.

(** The frames written to connections, in order. *)
Definition isWrite (ef : Effect) : bool :=
  match ef with
  | EffWriteMessage _ _ _ => true
  | _ => false
  end.

Definition written (tr : list Effect) : list Effect := List.filter isWrite tr.

Definition isReconnect (ef : Effect) : bool :=
  match ef with
  | EffGoReconnect => true
  | _ => false
  end.

Definition reconnects (tr : list Effect) : nat := length (List.filter isReconnect tr).

Definition graceful (code : Z) : bool :=
  (code =? CloseNormalClosure) || (code =? CloseGoingAway).

(** *** Reconnecting *)

(** [time.Second] in nanoseconds. *)
Definition Second : Z := 1000000000.

(** The error of [reconnectTry] when the tries are used up. *)
Definition ErrMaxTries (max : Z) : error :=
  ErrOther ("failed to reconnect. exceeded max reconnect tries of "
            +:+ pretty max +:+ " reached").

(** [reconnectTry]. [answers try] is what the outside answers to the
    [Open] of attempt [try]; [ctxErr try] is [ctx.Err()] when the context
    is done before the timer of that attempt fires. The recursion of the
    source is on [try+1]; [fuel] bounds its depth. *)
Fixpoint reconnectTryFuel (fuel : nat) (answers : Z -> Env) (ctxErr : Z -> option error)
    (try : Z) (delay : Z) : M World (option error) :=
  match fuel with
  | O => block
  | Datatypes.S fuel' =>
      (max <- getG (fun g => MaxReconnectTries (config g)) ;;
       if try >=? wrap64 (max - 1) then ret (Some (ErrMaxTries max))
       else
         match ctxErr try with
         | Some err => ret (Some err)
         | None =>
             err <- Open (answers try) ;;
             match err with
             | None => ret None
             | Some er =>
                 if decide (er = ErrGatewayAlreadyConnected) then ret (Some er)
                 else
                   modG (withStatus StatusDisconnected) ;;;
                   reconnectTryFuel fuel' answers ctxErr (wrap64 (try + 1)) delay
             end
         end)%go
  end.

(** Every call raises [try] by one and stops at [MaxReconnectTries-1]:
    the distance to it, plus one, is fuel enough. *)
Definition reconnectTry (answers : Z -> Env) (ctxErr : Z -> option error)
    (try : Z) (delay : Z) : M World (option error) :=
  fun w =>
    reconnectTryFuel
      (Datatypes.S (Z.to_nat (wrap64 (MaxReconnectTries (config (gw w)) - 1) - try)))
      answers ctxErr try delay w.

Definition reconnect (answers : Z -> Env) (ctxErr : Z -> option error) : M World unit :=
  (_ <- reconnectTry answers ctxErr 0 Second ;; ret tt)%go.

(** *** Observations on traces and outcomes *)

Definition isDial (ef : Effect) : bool :=
  match ef with
  | EffDial => true
  | _ => false
  end.

Definition dials (tr : list Effect) : nat := length (List.filter isDial tr).

(** [keeps P m Q]: started with [connMu] in state [P], the call [m]
    returns (it neither blocks nor panics) with [connMu] in state [Q]. *)
Definition keeps {A} (P : bool) (m : M World A) (Q : bool) : Prop :=
  forall w, connMu (gw w) = P ->
    match m w with
    | Returned _ w' => connMu (gw w') = Q
    | Blocked _ => False
    | Panicked _ => False
    end.

(** The decoder of [discord.GatewayMessage] builds [D] after [Op]: a
    decoded Hello, Dispatch or InvalidSession carries the payload of its
    opcode. *)
Definition wellTyped (event : GatewayMessage) : bool :=
  match Op event, D event with
  | GatewayOpcodeHello, DataHello _ => true
  | GatewayOpcodeHello, _ => false
  | GatewayOpcodeDispatch, DataDispatch _ => true
  | GatewayOpcodeDispatch, _ => false
  | GatewayOpcodeInvalidSession, DataInvalidSession _ => true
  | GatewayOpcodeInvalidSession, _ => false
  | _, _ => true
  end.


(** A Dispatch frame: its raw payload, and whether [listen] hands it to
    the event handler (all but a READY whose payload does not parse). *)
Definition isDispatch (event : GatewayMessage) : bool :=
  match Op event, D event with
  | GatewayOpcodeDispatch, DataDispatch _ => true
  | _, _ => false
  end.

Definition dispatchData (event : GatewayMessage) : bytes :=
  match D event with
  | DataDispatch data => data
  | _ => ""
  end.

Definition forwards (e : Env) (event : GatewayMessage) : bool :=
  if decide (T event = GatewayEventTypeReady)
  then match readySessionID e (dispatchData event) with
       | Some _ => true
       | None => false
       end
  else true.

Definition handlerCall (shardID : Z) (event : GatewayMessage) : Effect :=
  EffEventHandler (T event) (S event) shardID (dispatchData event).

(** Does [listen] leave its loop on this read, whatever the state? *)
Definition stops (r : ReadResult) : bool :=
  match r with
  | ReadFailed _ => true
  | ParseFailed => false
  | Parsed event =>
      match Op event with
      | GatewayOpcodeReconnect | GatewayOpcodeInvalidSession => true
      | _ => false
      end
  end.

(** The value of the local [reconnect] of [listen] for a read error. *)
Definition reconnectAllowed (e : Env) (err : ReadError) : bool :=
  match err with
  | CloseError code _ => ShouldReconnect e code
  | NetErrClosed => false
  | OtherReadError => true
  end.

(** [m] never ends an iteration of the loop with "go on". *)
Definition neverContinues (m : M World LoopCtl) : Prop :=
  forall w w', m w <> Returned Continue w'.

End Gateway.

(** ** api/slash_command_interaction.go: option accessors *)

Module Slash.

(** [api.Snowflake] is a string type. *)
Definition Snowflake := string.

(** [api.ChannelType]; the constants are pairwise distinct. *)
Inductive ChannelType :=
| ChannelTypeText
| ChannelTypeDM
| ChannelTypeVoice
| ChannelTypeGroupDM
| ChannelTypeCategory
| ChannelTypeNews
| ChannelTypeStore.

#[global] Instance ChannelType_eq_dec : EqDecision ChannelType.
Proof. solve_decision. Defined.

Record Channel := mkChannel {
  Channel_ID : Snowflake;
  Channel_Type : ChannelType;
  Channel_Name : string;
}.

(** [api.Resolved], the channel map the accessors below read. *)
Record Resolved := mkResolved {
  Channels : gmap string Channel;
}.

(** The dynamic value of an option, [interface{}]. *)
Inductive Value :=
| VString (s : string)
| VInt (i : Z)
| VBool (b : bool)
| VNil.

(** [api.Option] *)
Record Option := mkOption {
  OptResolved : option Resolved;
  OptName : string;
  OptValue : Value;
}.

(** A call returns or panics (failed type assertion, nil dereference). *)
Inductive Result (A : Type) :=
| Ok (a : A)
| Panic.

Arguments Ok {A} a.
Arguments Panic {A}.

Definition String (o : Option) : Result string :=
  match OptValue o with
  | VString s => Ok s
  | _ => Panic
  end.

Definition Integer (o : Option) : Result Z :=
  match OptValue o with
  | VInt i => Ok i
  | _ => Panic
  end.

Definition Bool (o : Option) : Result bool :=
  match OptValue o with
  | VBool b => Ok b
  | _ => Panic
  end.

Definition Snowflake_ (o : Option) : Result Snowflake := String o.

(** [o.Resolved.Channels[o.Snowflake()]]: nil when the id is not a key. *)
Definition Channel_ (o : Option) : Result (option Channel) :=
  match OptResolved o, Snowflake_ o with
  | Some r, Ok id => Ok (Channels r !! id)
  | _, _ => Panic
  end.

(** The typed views wrap a copy of the channel; each is given here by the
    channel it wraps, [None] for a nil result. *)
Definition MessageChannel (o : Option) : Result (option Channel) :=
  match Channel_ o with
  | Panic => Panic
  | Ok None => Ok None
  | Ok (Some channel) =>
      if negb (bool_decide (Channel_Type channel = ChannelTypeText))
         && negb (bool_decide (Channel_Type channel = ChannelTypeNews))
      then Ok None else Ok (Some channel)
  end.

Definition GuildChannel (o : Option) : Result (option Channel) :=
  match Channel_ o with
  | Panic => Panic
  | Ok None => Ok None
  | Ok (Some channel) =>
      if negb (bool_decide (Channel_Type channel = ChannelTypeText))
         && negb (bool_decide (Channel_Type channel = ChannelTypeNews))
         && negb (bool_decide (Channel_Type channel = ChannelTypeCategory))
         && negb (bool_decide (Channel_Type channel = ChannelTypeStore))
         && negb (bool_decide (Channel_Type channel = ChannelTypeVoice))
      then Ok None else Ok (Some channel)
  end.

Definition VoiceChannel (o : Option) : Result (option Channel) :=
  match Channel_ o with
  | Panic => Panic
  | Ok None => Ok None
  | Ok (Some channel) =>
      if negb (bool_decide (Channel_Type channel = ChannelTypeVoice))
      then Ok None else Ok (Some channel)
  end.

Definition TextChannel (o : Option) : Result (option Channel) :=
  match Channel_ o with
  | Panic => Panic
  | Ok None => Ok None
  | Ok (Some channel) =>
      if negb (bool_decide (Channel_Type channel = ChannelTypeText))
         && negb (bool_decide (Channel_Type channel = ChannelTypeNews))
      then Ok None else Ok (Some channel)
  end.

Definition Category (o : Option) : Result (option Channel) :=
  match Channel_ o with
  | Panic => Panic
  | Ok None => Ok None
  | Ok (Some channel) =>
      if negb (bool_decide (Channel_Type channel = ChannelTypeCategory))
      then Ok None else Ok (Some channel)
  end.

Definition StoreChannel (o : Option) : Result (option Channel) :=
  match Channel_ o with
  | Panic => Panic
  | Ok None => Ok None
  | Ok (Some channel) =>
      if negb (bool_decide (Channel_Type channel = ChannelTypeStore))
      then Ok None else Ok (Some channel)
  end.

(** How many of the four leaf views (voice, text, category, store) give
    a channel. *)
Definition given (r : Result (option Channel)) : nat :=
  match r with
  | Ok (Some _) => 1%nat
  | _ => 0%nat
  end.

End Slash.

(** ** rest request configuration (src/unnamed/part_002) *)

Module Rest.

(** [context.Context]: [context.TODO()] and the contexts of callers. *)
Inductive Context :=
| ContextTODO
| ContextOf (n : nat).

(** [Check] is [func() bool]. *)
Definition Check := unit -> bool.

(** [RequestConfig] without the [*http.Request], which the options
    modelled here do not touch; a nil [Ctx] is [None]. *)
Record RequestConfig := mkRequestConfig {
  Ctx : option Context;
  Checks : list Check;
  Delay : Z;
}.

(** [RequestOpt] is [func(config *RequestConfig)]. *)
Definition RequestOpt := RequestConfig -> RequestConfig.

Definition WithCtx (ctx : option Context) : RequestOpt :=
  fun config => {| Ctx := ctx; Checks := Checks config; Delay := Delay config |}.

Definition WithCheck (check : Check) : RequestOpt :=
  fun config =>
    {| Ctx := Ctx config; Checks := Checks config ++ [check]; Delay := Delay config |}.

Definition WithDelay (delay : Z) : RequestOpt :=
  fun config => {| Ctx := Ctx config; Checks := Checks config; Delay := delay |}.

Definition Apply (c : RequestConfig) (opts : list RequestOpt) : RequestConfig :=
  let c' := fold_left (fun config opt => opt config) opts c in
  match Ctx c' with
  | None => {| Ctx := Some ContextTODO; Checks := Checks c'; Delay := Delay c' |}
  | Some _ => c'
  end.

End Rest.

(** * Sample runs *)

Module ChunkingSamples.

Import Chunking.

Definition alice : Member :=
  {| Member_User := {| User_ID := 11%N; User_Username := "alice" |};
     Member_Nick := "al" |}.

Definition guildShard : Shard :=
  {| hasGuildMembers := true; hasGuildPresences := false; sendError := None |}.

(** A request for the members of guild 5 is opened with nonce ["n1"]. *)
Definition opened : Outcome World Opened :=
  requestGuildMembersChan (inr guildShard) ["n1"] 5%N (Some "") (Some 0) [] None
    NewMemberChunkingManager.

Definition openedRequest : chunkingRequest :=
  {| nonce := "n1"; memberChan := 0%nat; memberFilterFunc := None; chunks := 0 |}.

(** ... and cancelled by the closure that was returned. *)
Definition cancelled : World :=
  finalState (cleanupRequest openedRequest (finalState opened)).

Definition lateChunk : GatewayEventGuildMembersChunk :=
  {| GuildID := 5%N; Members := [alice]; ChunkIndex := 0; ChunkCount := 1;
     Nonce := "n1" |}.

End ChunkingSamples.

Module GatewaySamples.

Import Gateway.

Definition sampleConfig : Config :=
  {| ShardID := 0; ShardCount := 1; SessionID := None;
     LastSequenceReceived := None; AutoReconnect := true;
     MaxReconnectTries := 10; GatewayIntents := 513; Compress := false;
     LargeThreshold := 50; Presence := None;
     OS := "linux"; Browser := "disgo"; Device := "disgo" |}.

(** A configuration that carries a session to resume. *)
Definition resumableConfig : Config :=
  setSession (Some "session-1") (Some 42) sampleConfig.

(** A stand-in encoder that keeps the opcode readable. *)
Definition encode (op : GatewayOpcode) (d : GatewayMessageData) : error + bytes :=
  inr match op with
      | GatewayOpcodeHeartbeat => "op=1"
      | GatewayOpcodeIdentify => "op=2"
      | GatewayOpcodePresenceUpdate => "op=3"
      | GatewayOpcodeVoiceStateUpdate => "op=4"
      | GatewayOpcodeResume => "op=6"
      | GatewayOpcodeRequestGuildMembers => "op=8"
      | _ => "op=other"
      end.

(** Everything succeeds: the dial gives connection 1, the rate limiter
    grants a slot, writes go through. *)
Definition okEnv : Env :=
  {| dial := inr 1%nat; rlWait := None; connWrite := None; now := 1000;
     jsonMarshal := encode;
     readySessionID := fun _ => Some "session-1";
     ShouldReconnect := fun code => negb (code =? GatewayCloseEventCodeDisallowedIntents) |}.

(** The dial is refused. *)
Definition dialFails : Env :=
  {| dial := inl (ErrOther "connection refused"); rlWait := None;
     connWrite := None; now := 1000; jsonMarshal := encode;
     readySessionID := fun _ => Some "session-1";
     ShouldReconnect := fun code => negb (code =? GatewayCloseEventCodeDisallowedIntents) |}.


Definition fresh : World := start (New "token" true sampleConfig).

Definition freshResumable : World := start (New "token" true resumableConfig).

(** [Open] succeeded: connection 1, waiting for Hello. *)
Definition connected : World := finalState (Open okEnv fresh).

(** The same with a session to resume. *)
Definition connectedResumable : World := finalState (Open okEnv freshResumable).

Definition hello : GatewayMessage :=
  {| Op := GatewayOpcodeHello; S := 0; T := ""; D := DataHello 41250 |}.




End GatewaySamples.

Module ChunkingRuns.

Import Chunking.



(** The request of [ChunkingSamples.opened] is pending, its channel 0 is
    open and empty. *)
Definition pending : World := finalState ChunkingSamples.opened.




End ChunkingRuns.

Module GatewayRuns.

Import Gateway GatewaySamples.

(** A READY dispatch with sequence 1 and two further dispatches. *)
Definition ready : GatewayMessage :=
  {| Op := GatewayOpcodeDispatch; S := 1; T := "READY"; D := DataDispatch "ready-payload" |}.

Definition guildCreate : GatewayMessage :=
  {| Op := GatewayOpcodeDispatch; S := 2; T := "GUILD_CREATE";
     D := DataDispatch "guild-payload" |}.

Definition messageCreate : GatewayMessage :=
  {| Op := GatewayOpcodeDispatch; S := 3; T := "MESSAGE_CREATE";
     D := DataDispatch "message-payload" |}.

Definition reconnectFrame : GatewayMessage :=
  {| Op := GatewayOpcodeReconnect; S := 0; T := ""; D := DataNil |}.

Definition invalidSession : GatewayMessage :=
  {| Op := GatewayOpcodeInvalidSession; S := 0; T := ""; D := DataInvalidSession false |}.



(** The gateway after READY, live on connection 1. *)
Definition live : World := finalState (listen okEnv 1%nat [Parsed hello; Parsed ready] connected).

(** The same gateway with auto-reconnect switched off. *)
Definition liveNoReconnect : World :=
  {| gw := withConfig (fun c =>
             {| ShardID := ShardID c; ShardCount := ShardCount c;
                SessionID := SessionID c;
                LastSequenceReceived := LastSequenceReceived c;
                AutoReconnect := false; MaxReconnectTries := MaxReconnectTries c;
                GatewayIntents := GatewayIntents c; Compress := Compress c;
                LargeThreshold := LargeThreshold c; Presence := Presence c;
                OS := OS c; Browser := Browser c; Device := Device c |}) (gw live);
     trace := [] |}.

(** A gateway configured with a single reconnect try. *)
Definition singleTry : World :=
  {| gw := withConfig (fun c =>
             {| ShardID := ShardID c; ShardCount := ShardCount c;
                SessionID := SessionID c;
                LastSequenceReceived := LastSequenceReceived c;
                AutoReconnect := AutoReconnect c; MaxReconnectTries := 1;
                GatewayIntents := GatewayIntents c; Compress := Compress c;
                LargeThreshold := LargeThreshold c; Presence := Presence c;
                OS := OS c; Browser := Browser c; Device := Device c |}) (gw fresh);
     trace := [] |}.

End GatewayRuns.

(** * Properties *)

(** ** Machine integers *)


(** ** Guild availability *)

Section GuildCacheFacts.

Import GuildCache.

Implicit Types (c : guildCacheImpl) (p g : Snowflake) (ops : list Op).

Lemma IsUnready_SetUnready c g p :
  IsUnready (SetUnready c g) p = if decide (g = p) then true else IsUnready c p.
Proof.
  unfold IsUnready, SetUnready; simpl.
  destruct (decide (g = p)) as [->|Hne].
  - by rewrite lookup_insert_eq.
  - by rewrite lookup_insert_ne.
Qed.

Lemma IsUnready_SetReady c g p :
  IsUnready (SetReady c g) p = if decide (g = p) then false else IsUnready c p.
Proof.
  unfold IsUnready, SetReady; simpl.
  destruct (decide (g = p)) as [->|Hne].
  - by rewrite lookup_delete_eq.
  - by rewrite lookup_delete_ne.
Qed.

Lemma IsUnavailable_SetUnavailable c g p :
  IsUnavailable (SetUnavailable c g) p = if decide (g = p) then true else IsUnavailable c p.
Proof.
  unfold IsUnavailable, SetUnavailable; simpl.
  destruct (decide (g = p)) as [->|Hne].
  - by rewrite lookup_insert_eq.
  - by rewrite lookup_insert_ne.
Qed.

Lemma IsUnavailable_SetAvailable c g p :
  IsUnavailable (SetAvailable c g) p = if decide (g = p) then false else IsUnavailable c p.
Proof.
  unfold IsUnavailable, SetAvailable; simpl.
  destruct (decide (g = p)) as [->|Hne].
  - by rewrite lookup_delete_eq.
  - by rewrite lookup_delete_ne.
Qed.

(** One call moves each flag as the history functions say: the unready
    flag ignores [SetUnavailable]/[SetAvailable] and the unavailable flag
    ignores [SetUnready]/[SetReady]. *)
Lemma apply_flags c o p :
  IsUnready (apply c o) p = unreadyStep p (IsUnready c p) o /\
  IsUnavailable (apply c o) p = unavailableStep p (IsUnavailable c p) o.
Proof.
  destruct o as [g|g|g|g]; simpl.
  - split; [apply IsUnready_SetReady | reflexivity].
  - split; [apply IsUnready_SetUnready | reflexivity].
  - split; [reflexivity | apply IsUnavailable_SetUnavailable].
  - split; [reflexivity | apply IsUnavailable_SetAvailable].
Qed.

Lemma run_flags ops : forall c p,
  IsUnready (run ops c) p = lastUnready p ops (IsUnready c p) /\
  IsUnavailable (run ops c) p = lastUnavailable p ops (IsUnavailable c p).
Proof.
  unfold run, lastUnready, lastUnavailable.
  induction ops as [|o ops IH]; intros c p; simpl.
  - split; reflexivity.
  - destruct (apply_flags c o p) as [Hu Ha].
    destruct (IH (apply c o) p) as [IHu IHa].
    rewrite IHu, IHa, Hu, Ha. split; reflexivity.
Qed.

Lemma NewGuildCache_flags p :
  IsUnready NewGuildCache p = false /\ IsUnavailable NewGuildCache p = false.
Proof.
  unfold IsUnready, IsUnavailable, NewGuildCache; simpl.
  rewrite !lookup_empty. split; reflexivity.
Qed.

(** C5, as stated, fails: after [SetUnready "1"] then [SetUnavailable "1"]
    on a new cache, guild ["1"] is both unready and unavailable. *)
Lemma C5_unready_and_unavailable :
  let c := run [OpSetUnready "1"; OpSetUnavailable "1"] NewGuildCache in
  IsUnready c "1" = true /\ IsUnavailable c "1" = true.
Proof.
  cbv zeta.
  destruct (run_flags [OpSetUnready "1"; OpSetUnavailable "1"] NewGuildCache "1")
    as [Hu Ha].
  destruct (NewGuildCache_flags "1") as [Hu0 Ha0].
  rewrite Hu, Ha, Hu0, Ha0. split; reflexivity.
Qed.

(** C5, amended: the two sets are kept independently. In every state
    reached by a sequence of SetReady/SetUnready/SetUnavailable/SetAvailable
    calls on a new cache, a guild is unready exactly when the last
    SetUnready/SetReady call naming it was SetUnready, and unavailable
    exactly when the last SetUnavailable/SetAvailable call naming it was
    SetUnavailable; the calls of one pair never change the other set. *)
Theorem C5_sets_independent ops p :
  IsUnready (run ops NewGuildCache) p = lastUnready p ops false /\
  IsUnavailable (run ops NewGuildCache) p = lastUnavailable p ops false.
Proof.
  destruct (run_flags ops NewGuildCache p) as [Hu Ha].
  destruct (NewGuildCache_flags p) as [Hu0 Ha0].
  rewrite Hu, Ha, Hu0, Ha0. split; reflexivity.
Qed.

(** C6, as stated, fails: SetUnavailable, SetUnready, SetReady on guild
    ["7"] of a new cache leaves ["7"] in the unavailable set. *)
Lemma C6_still_unavailable :
  IsUnavailable
    (SetReady (SetUnready (SetUnavailable NewGuildCache "7") "7") "7") "7" = true.
Proof.
  unfold IsUnavailable, SetReady, SetUnready, SetUnavailable; simpl.
  by rewrite lookup_insert_eq.
Qed.

(** C6, amended: from any state, SetUnavailable(p), SetUnready(p),
    SetReady(p) leaves p absent from the unready set and still present in
    the unavailable set. *)
Theorem C6_unavailable_unready_ready c p :
  let c' := SetReady (SetUnready (SetUnavailable c p) p) p in
  IsUnready c' p = false /\ IsUnavailable c' p = true.
Proof.
  cbv zeta. split.
  - rewrite IsUnready_SetReady. by rewrite decide_True.
  - unfold IsUnavailable, SetReady, SetUnready, SetUnavailable; simpl.
    by rewrite lookup_insert_eq.
Qed.

End GuildCacheFacts.

(** ** Member chunking *)

Section ChunkingFacts.

Import Chunking.

Implicit Types (w : World) (request : chunkingRequest)
  (payload : GatewayEventGuildMembersChunk).

Lemma chanSend_requests ch member w w' :
  chanSend ch member w = Returned tt w' -> chunkingRequests w' = chunkingRequests w.
Proof.
  unfold chanSend. destruct (chans w !! ch) as [st|]; [|discriminate].
  destruct (closed st); [discriminate|].
  intros [= <-]. reflexivity.
Qed.

Lemma deliver_requests guildID request members : forall w w',
  deliver guildID request members w = Returned tt w' ->
  chunkingRequests w' = chunkingRequests w.
Proof.
  induction members as [|member rest IH]; intros w w'; simpl.
  - intros [= <-]. reflexivity.
  - unfold bind at 1. unfold cachePut, modify at 1.
    unfold bind at 1.
    set (w1 := {| chunkingRequests := chunkingRequests w |}).
    assert (Hw1 : chunkingRequests w1 = chunkingRequests w) by reflexivity.
    destruct (memberFilterFunc request) as [f|].
    + destruct (f member).
      * destruct (chanSend (memberChan request) member w1) as [[] w2| |] eqn:Hs;
          try discriminate.
        intros H. apply IH in H. apply chanSend_requests in Hs. congruence.
      * unfold ret at 1. intros H. apply IH in H. congruence.
    + destruct (chanSend (memberChan request) member w1) as [[] w2| |] eqn:Hs;
        try discriminate.
      intros H. apply IH in H. apply chanSend_requests in Hs. congruence.
Qed.

(** [cleanupRequest] takes the request's nonce out of the map. *)
Lemma cleanupRequest_removes request w w' :
  cleanupRequest request w = Returned tt w' ->
  chunkingRequests w' !! nonce request = None.
Proof.
  unfold cleanupRequest, bind, chanClose.
  destruct (chans w !! memberChan request) as [st|]; [|discriminate].
  destruct (closed st); [discriminate|].
  unfold modify. intros [= <-]. simpl. apply lookup_delete_eq.
Qed.

(** C9: a chunk whose nonce is not a key of the pending-request map makes
    HandleChunk return normally with the whole state as it was: no channel
    receives a member, no request (and no cache entry) changes. This
    covers nonces retired by their last chunk and nonces removed by the
    cancel function, see [retired_nonce_is_unknown] and
    [cancelled_nonce_is_unknown]. *)
Theorem C9_unknown_nonce_dropped w payload :
  chunkingRequests w !! Nonce payload = None ->
  HandleChunk payload w = Returned tt w.
Proof.
  intros Hmiss. unfold HandleChunk. rewrite Hmiss. reflexivity.
Qed.

(** The cancel closure is [cleanupRequest] on the captured request: once
    it has run, the request's nonce is unknown. *)
Lemma cancelled_nonce_is_unknown request w w' payload :
  cleanupRequest request w = Returned tt w' ->
  Nonce payload = nonce request ->
  chunkingRequests w' !! Nonce payload = None /\
  HandleChunk payload w' = Returned tt w'.
Proof.
  intros Hc Hn. apply cleanupRequest_removes in Hc. rewrite <- Hn in Hc.
  split; [exact Hc|]. unfold HandleChunk. rewrite Hc. reflexivity.
Qed.

(** After the chunk that completes a request (registered under its own
    nonce), a later chunk with the same nonce finds nothing. *)
Lemma retired_nonce_is_unknown request w w' payload later :
  chunkingRequests w !! Nonce payload = Some request ->
  nonce request = Nonce payload ->
  chunks request = wrap64 (ChunkCount payload - 1) ->
  HandleChunk payload w = Returned tt w' ->
  Nonce later = Nonce payload ->
  chunkingRequests w' !! Nonce later = None /\
  HandleChunk later w' = Returned tt w'.
Proof.
  intros Hreq Hkey Hlast Hrun Hlater.
  unfold HandleChunk in Hrun. rewrite Hreq in Hrun.
  rewrite Hlast, Z.eqb_refl in Hrun.
  unfold bind in Hrun at 1.
  destruct (deliver (GuildID payload) request (Members payload) w) as [[] w1| |];
    try discriminate.
  apply cleanupRequest_removes in Hrun.
  rewrite Hkey, <- Hlater in Hrun.
  split; [exact Hrun|]. unfold HandleChunk. rewrite Hrun. reflexivity.
Qed.

(** The theorem at work: a request is opened with nonce ["n1"] and
    cancelled; the chunk that arrives afterwards is dropped. *)
Lemma C9_witness :
  chunkingRequests ChunkingSamples.cancelled !! Nonce ChunkingSamples.lateChunk = None /\
  HandleChunk ChunkingSamples.lateChunk ChunkingSamples.cancelled = Returned tt ChunkingSamples.cancelled.
Proof.
  assert (H : chunkingRequests ChunkingSamples.cancelled !! Nonce ChunkingSamples.lateChunk = None)
    by (vm_compute; reflexivity).
  split; [exact H | exact (C9_unknown_nonce_dropped _ _ H)].
Defined.

End ChunkingFacts.

(** ** Gateway *)

Section GatewayFacts.

Import Gateway.

Implicit Types (e : Env) (w : World) (g : gatewayImpl).

(** Unfold the operations down to the state function they denote. *)
Ltac go_unfold :=
  unfold handleEvent, identify, resume, sendHeartbeat, Send, send, Open, Close,
    CloseWithCode, heartbeat, lock, unlock, getG, modG, emit, gets, modify,
    bind, ret, panic, block in *.

(** C10: Open on a gateway that holds a connection returns
    ErrGatewayAlreadyConnected and leaves the whole gateway as it was
    (connection handle, status, session id, sequence and everything
    else); nothing is dialled, written or spawned. *)
Theorem C10_open_already_connected e w c :
  conn (gw w) = Some c ->
  connMu (gw w) = false ->
  Open e w = Returned (Some ErrGatewayAlreadyConnected) w.
Proof.
  intros Hc Hmu. destruct w as [g tr]. simpl in *.
  go_unfold. simpl. rewrite Hmu. simpl. rewrite Hc. simpl.
  destruct g; simpl in *; subst; reflexivity.
Qed.

Lemma C10_witness :
  conn (gw GatewaySamples.connected) = Some 1%nat /\
  connMu (gw GatewaySamples.connected) = false /\
  Open GatewaySamples.okEnv GatewaySamples.connected =
    Returned (Some ErrGatewayAlreadyConnected) GatewaySamples.connected.
Proof.
  split; [reflexivity|]. split; [reflexivity|].
  apply (C10_open_already_connected GatewaySamples.okEnv GatewaySamples.connected 1%nat);
    reflexivity.
Defined.

(** C3, as stated, fails: on a new gateway whose dial is refused, Open
    does not return (it calls Close while it holds connMu, and Close
    waits for connMu), and the status it leaves is Connecting, not
    Unconnected. *)
Lemma C3_open_failure_not_unconnected :
  status (gw GatewaySamples.fresh) = StatusUnconnected /\
  returned (Open GatewaySamples.dialFails GatewaySamples.fresh) = None /\
  status (gw (finalState (Open GatewaySamples.dialFails GatewaySamples.fresh)))
    = StatusConnecting.
Proof. repeat split. Qed.

(** C3, amended: Open on a gateway without a connection sets the status
    to Connecting before it dials; when the dial fails the status is
    still Connecting afterwards (it is not set back to Unconnected), no
    connection handle is stored and the configuration, session id and
    sequence included, is untouched. *)
Theorem C3_open_failure_status e w err :
  conn (gw w) = None ->
  connMu (gw w) = false ->
  dial e = inl err ->
  status (gw (finalState (Open e w))) = StatusConnecting /\
  conn (gw (finalState (Open e w))) = None /\
  config (gw (finalState (Open e w))) = config (gw w).
Proof.
  intros Hc Hmu Hd. destruct w as [g tr]. simpl in *.
  go_unfold. simpl. rewrite Hmu. simpl. rewrite Hc. simpl. rewrite Hd. simpl.
  destruct (heartbeatTicker g); simpl; repeat split; assumption.
Qed.

Lemma C3_witness :
  conn (gw GatewaySamples.fresh) = None /\
  connMu (gw GatewaySamples.fresh) = false /\
  dial GatewaySamples.dialFails = inl (ErrOther "connection refused") /\
  status (gw (finalState (Open GatewaySamples.dialFails GatewaySamples.fresh)))
    = StatusConnecting /\
  conn (gw (finalState (Open GatewaySamples.dialFails GatewaySamples.fresh))) = None /\
  config (gw (finalState (Open GatewaySamples.dialFails GatewaySamples.fresh)))
    = config (gw GatewaySamples.fresh).
Proof.
  split; [reflexivity|]. split; [reflexivity|]. split; [reflexivity|].
  apply (C3_open_failure_status GatewaySamples.dialFails GatewaySamples.fresh
           (ErrOther "connection refused")); reflexivity.
Defined.

(** CloseWithCode returns when the mutex is free, leaves no connection,
    and changes the configuration only by clearing the session. *)
Lemma CloseWithCode_session code message w :
  connMu (gw w) = false ->
  returned (CloseWithCode code message w) = Some tt /\
  conn (gw (finalState (CloseWithCode code message w))) = None /\
  connMu (gw (finalState (CloseWithCode code message w))) = false /\
  config (gw (finalState (CloseWithCode code message w))) =
    match conn (gw w) with
    | Some _ =>
        if graceful code then setSession None None (config (gw w))
        else config (gw w)
    | None => config (gw w)
    end.
Proof.
  intros Hmu. destruct w as [g tr]. simpl in *.
  go_unfold. unfold graceful. simpl.
  destruct (heartbeatTicker g) as [tk|]; simpl; rewrite Hmu; simpl;
    destruct (conn g) as [cn|] eqn:Hc; simpl;
    try destruct ((code =? CloseNormalClosure) || (code =? CloseGoingAway));
    simpl; auto.
Qed.

(** C7, as stated, fails: a gateway that holds a session to resume but no
    connection keeps session id and sequence through Close(), whose code
    is the graceful CloseNormalClosure. *)
Lemma C7_graceful_close_keeps_session :
  graceful CloseNormalClosure = true /\
  SessionID (config (gw (finalState (Close GatewaySamples.freshResumable))))
    = Some "session-1" /\
  LastSequenceReceived (config (gw (finalState (Close GatewaySamples.freshResumable))))
    = Some 42.
Proof. repeat split. Qed.

(** C7, amended: CloseWithCode clears session id and last sequence
    exactly when a connection handle exists and the close code is
    graceful (CloseNormalClosure or CloseGoingAway); with any other code,
    or with no connection to close, both keep their prior values. *)
Theorem C7_close_clears_session code message w :
  connMu (gw w) = false ->
  SessionID (config (gw (finalState (CloseWithCode code message w)))) =
    (if bool_decide (is_Some (conn (gw w))) && graceful code
     then None else SessionID (config (gw w))) /\
  LastSequenceReceived (config (gw (finalState (CloseWithCode code message w)))) =
    (if bool_decide (is_Some (conn (gw w))) && graceful code
     then None else LastSequenceReceived (config (gw w))).
Proof.
  intros Hmu.
  destruct (CloseWithCode_session code message w Hmu) as (_ & _ & _ & ->).
  destruct (conn (gw w)) as [cn|].
  - rewrite bool_decide_eq_true_2 by eauto. simpl.
    destruct (graceful code); split; reflexivity.
  - rewrite bool_decide_eq_false_2 by (intros [? ?]; discriminate).
    split; reflexivity.
Qed.

Lemma C7_witness :
  connMu (gw GatewaySamples.connectedResumable) = false /\
  SessionID (config (gw (finalState
    (CloseWithCode CloseGoingAway "bye" GatewaySamples.connectedResumable)))) = None /\
  LastSequenceReceived (config (gw (finalState
    (CloseWithCode CloseGoingAway "bye" GatewaySamples.connectedResumable)))) = None.
Proof.
  split; [reflexivity|].
  apply (C7_close_clears_session CloseGoingAway "bye" GatewaySamples.connectedResumable).
  reflexivity.
Defined.

(** [Send] told in full, for a free mutex and a payload that encodes. *)
Lemma Send_run e op d data w :
  connMu (gw w) = false ->
  jsonMarshal e op d = inr data ->
  Send e op d w =
    match conn (gw w) with
    | None => Returned (Some ErrShardNotConnected) w
    | Some c =>
        match rlWait e with
        | Some err =>
            Returned (Some err)
              {| gw := gw w; trace := trace w ++ [EffRateLimiterWait] |}
        | None =>
            Returned (connWrite e)
              {| gw := gw w;
                 trace := trace w ++ [EffRateLimiterWait;
                                      EffWriteMessage c TextMessage data;
                                      EffRateLimiterUnlock] |}
        end
    end.
Proof.
  intros Hmu Hd. destruct w as [g tr]. simpl in *.
  unfold Send. rewrite Hd. go_unfold. simpl. rewrite Hmu. simpl.
  destruct g as [cfg h tok [cn|] mu tk st hi ls lr]; simpl in *; subst mu.
  - destruct (rlWait e); simpl; rewrite <- ?app_assoc; reflexivity.
  - reflexivity.
Qed.

(** C4, as stated, fails: right after Open, in status WaitingForHello, a
    RequestGuildMembers command given to Send is written to the
    connection and Send returns no error. *)
Lemma C4_command_written_before_ready :
  status (gw GatewaySamples.connected) = StatusWaitingForHello /\
  applicationCommand GatewayOpcodeRequestGuildMembers = true /\
  returned (Send GatewaySamples.okEnv GatewayOpcodeRequestGuildMembers
              (DataCommand "members") GatewaySamples.connected) = Some None /\
  written (trace (finalState
    (Send GatewaySamples.okEnv GatewayOpcodeRequestGuildMembers
       (DataCommand "members") GatewaySamples.connected)))
    = [EffWriteMessage 1%nat TextMessage "op=8"].
Proof. repeat split. Qed.

(** C4, amended: Send returns ErrShardNotConnected and writes no frame
    exactly when the gateway holds no connection; neither the status nor
    the opcode is looked at. While a connection is held, any command,
    application or protocol-internal, in any status, waits for the rate
    limiter and, once granted, is written to the connection. *)
Theorem C4_send_needs_connection_only e op d data w :
  connMu (gw w) = false ->
  jsonMarshal e op d = inr data ->
  Send e op d w =
    match conn (gw w) with
    | None => Returned (Some ErrShardNotConnected) w
    | Some c =>
        match rlWait e with
        | Some err =>
            Returned (Some err)
              {| gw := gw w; trace := trace w ++ [EffRateLimiterWait] |}
        | None =>
            Returned (connWrite e)
              {| gw := gw w;
                 trace := trace w ++ [EffRateLimiterWait;
                                      EffWriteMessage c TextMessage data;
                                      EffRateLimiterUnlock] |}
        end
    end.
Proof. exact (Send_run e op d data w). Qed.

Lemma C4_witness :
  connMu (gw GatewaySamples.fresh) = false /\
  jsonMarshal GatewaySamples.okEnv GatewayOpcodePresenceUpdate (DataCommand "online")
    = inr "op=3" /\
  Send GatewaySamples.okEnv GatewayOpcodePresenceUpdate (DataCommand "online")
    GatewaySamples.fresh
  = Returned (Some ErrShardNotConnected) GatewaySamples.fresh.
Proof.
  split; [reflexivity|]. split; [reflexivity|].
  apply (C4_send_needs_connection_only GatewaySamples.okEnv
           GatewayOpcodePresenceUpdate (DataCommand "online") "op=3"
           GatewaySamples.fresh); reflexivity.
Defined.

Lemma reconnects_app (tr1 tr2 : list Effect) :
  reconnects (tr1 ++ tr2) = (reconnects tr1 + reconnects tr2)%nat.
Proof. unfold reconnects. rewrite List.filter_app, length_app. reflexivity. Qed.










(** [Open] when the dial succeeds. *)
Lemma Open_success e w c :
  conn (gw w) = None ->
  connMu (gw w) = false ->
  dial e = inr c ->
  Open e w =
    Returned None
      {| gw := withStatus StatusWaitingForHello
                 (withConn (Some c) (withLastSent (now e) (gw w)));
         trace := trace w ++ [EffDial; EffRateLimiterReset; EffGoListen c] |}.
Proof.
  intros Hc Hmu Hd. destruct w as [g tr].
  destruct g as [cfg h tok cn mu tk st hi ls lr]; simpl in *; subst.
  go_unfold. simpl. rewrite Hd. simpl. rewrite <- !app_assoc. reflexivity.
Qed.


Lemma written_app (tr1 tr2 : list Effect) :
  written (tr1 ++ tr2) = written tr1 ++ written tr2.
Proof. unfold written. apply List.filter_app. Qed.


(** Hello with session id and sequence: Resume, carrying both, is the
    one frame written. *)
Lemma hello_resumes e w event ms c sid seq data :
  Op event = GatewayOpcodeHello ->
  D event = DataHello ms ->
  conn (gw w) = Some c ->
  connMu (gw w) = false ->
  rlWait e = None ->
  LastSequenceReceived (config (gw w)) = Some seq ->
  SessionID (config (gw w)) = Some sid ->
  jsonMarshal e GatewayOpcodeResume (DataResume (token (gw w)) sid seq) = inr data ->
  trace (finalState (handleEvent e event w)) =
    trace w ++ [EffGoHeartbeat; EffRateLimiterWait;
                EffWriteMessage c TextMessage data; EffRateLimiterUnlock] /\
  status (gw (finalState (handleEvent e event w))) = StatusResuming.
Proof.
  intros Hop Hd Hc Hmu Hrl Hseq Hsid Hm. destruct w as [g tr].
  destruct g as [cfg h tok cn mu tk st hi ls lr].
  destruct cfg as [sh shc sid' seq' ar mr gi cp lt pr os br dv].
  simpl in *; subst.
  unfold handleEvent. rewrite Hop, Hd. go_unfold. simpl.
  rewrite Hm; simpl; rewrite Hrl; simpl; rewrite <- !app_assoc; split; reflexivity.
Qed.



End GatewayFacts.

(** ** Guild cache: the rest of the interface *)

Section GuildCacheMore.

Import GuildCache.

Implicit Types (c : guildCacheImpl) (p id : Snowflake) (guild : Guild).

(** X1: SetUnavailable evicts the guild from the cache: Get on its id
    gives nil afterwards, every other guild and the unready set are as
    before, and a later SetAvailable clears the unavailable mark without
    bringing the guild back. *)
Theorem X1_SetUnavailable_evicts c id :
  Get (SetUnavailable c id) id = None /\
  (forall other, other <> id -> Get (SetUnavailable c id) other = Get c other) /\
  (forall p, IsUnready (SetUnavailable c id) p = IsUnready c p) /\
  IsUnavailable (SetAvailable (SetUnavailable c id) id) id = false /\
  Get (SetAvailable (SetUnavailable c id) id) id = None.
Proof.
  unfold Get, SetUnavailable, SetAvailable, Remove, IsUnready, IsUnavailable; simpl.
  repeat split.
  - apply lookup_delete_eq.
  - intros other Hne. by apply lookup_delete_ne.
  - by rewrite lookup_delete_eq.
  - apply lookup_delete_eq.
Qed.

(** X2: with guild caching enabled, Set stores the guild under its id:
    Get on that id returns the guild just set (also when an older one was
    cached), other ids and both marker sets are untouched. With the guild
    flag missing, Set stores nothing and hands the guild back. *)
Theorem X2_Set_then_Get c guild :
  Get (Set_ false c guild).1 (guild_ID guild) = Some guild /\
  (Set_ false c guild).2 = guild /\
  (forall other, other <> guild_ID guild ->
     Get (Set_ false c guild).1 other = Get c other) /\
  (forall p, IsUnready (Set_ false c guild).1 p = IsUnready c p /\
             IsUnavailable (Set_ false c guild).1 p = IsUnavailable c p) /\
  Set_ true c guild = (c, guild).
Proof.
  unfold Get, Set_, IsUnready, IsUnavailable.
  destruct (guilds c !! guild_ID guild); simpl; repeat split;
    try apply lookup_insert_eq;
    intros other Hne; by apply lookup_insert_ne.
Qed.

(** X3: UnreadyGuilds lists exactly the ids for which IsUnready holds and
    UnavailableGuilds exactly those for which IsUnavailable holds, each id
    once. *)
Theorem X3_marker_lists c p :
  (p ∈ UnreadyGuilds c <-> IsUnready c p = true) /\
  (p ∈ UnavailableGuilds c <-> IsUnavailable c p = true) /\
  NoDup (UnreadyGuilds c) /\
  NoDup (UnavailableGuilds c).
Proof.
  unfold UnreadyGuilds, UnavailableGuilds, IsUnready, IsUnavailable.
  split; [|split; [|split; apply NoDup_fst_map_to_list]].
  - rewrite list_elem_of_fmap. split.
    + intros ([k []] & -> & Hin). apply elem_of_map_to_list in Hin.
      simpl. by rewrite Hin.
    + destruct (unreadyGuilds c !! p) as [[]|] eqn:Hp; [|discriminate].
      intros _. exists (p, tt). split; [reflexivity|].
      by apply elem_of_map_to_list.
  - rewrite list_elem_of_fmap. split.
    + intros ([k []] & -> & Hin). apply elem_of_map_to_list in Hin.
      simpl. by rewrite Hin.
    + destruct (unavailableGuilds c !! p) as [[]|] eqn:Hp; [|discriminate].
      intros _. exists (p, tt). split; [reflexivity|].
      by apply elem_of_map_to_list.
Qed.

Lemma findFirst_Some f (gs : list Guild) guild :
  findFirst f gs = Some guild -> guild ∈ gs /\ f guild = true.
Proof.
  induction gs as [|g gs IH]; simpl; [discriminate|].
  destruct (f g) eqn:Hf.
  - intros [= <-]. split; [left | exact Hf].
  - intros H. destruct (IH H) as [Hin Hg]. split; [by right | exact Hg].
Qed.

Lemma findFirst_None f (gs : list Guild) :
  findFirst f gs = None <-> forall guild, guild ∈ gs -> f guild = false.
Proof.
  induction gs as [|g gs IH]; simpl.
  - split; [|reflexivity]. intros _ guild Hin. by apply elem_of_nil in Hin.
  - destruct (f g) eqn:Hf.
    + split; [discriminate|]. intros H.
      rewrite (H g) in Hf by left. discriminate.
    + rewrite IH. split.
      * intros H guild Hin. apply elem_of_cons in Hin as [->|Hin]; auto.
      * intros H guild Hin. apply H. by right.
Qed.

Lemma cached_values c guild :
  guild ∈ (map_to_list (guilds c)).*2 <-> exists id, Get c id = Some guild.
Proof.
  unfold Get. rewrite list_elem_of_fmap. split.
  - intros ([k g] & -> & Hin). exists k. by apply elem_of_map_to_list in Hin.
  - intros [id Hid]. exists (id, guild). split; [reflexivity|].
    by apply elem_of_map_to_list.
Qed.

(** X4: FindAll returns exactly the cached guilds the predicate accepts;
    FindFirst returns one of them, and nil exactly when the predicate
    accepts no cached guild. All returns every cached guild. *)
Theorem X4_find c (f : Guild -> bool) guild :
  (guild ∈ FindAll c f <-> (exists id, Get c id = Some guild) /\ f guild = true) /\
  (FindFirst c f = Some guild -> (exists id, Get c id = Some guild) /\ f guild = true) /\
  (FindFirst c f = None <-> forall id g, Get c id = Some g -> f g = false) /\
  (guild ∈ All c <-> exists id, Get c id = Some guild).
Proof.
  unfold FindAll, FindFirst, All. repeat split.
  - apply list_elem_of_In, List.filter_In in H as [Hin _].
    apply cached_values. by apply list_elem_of_In.
  - apply list_elem_of_In, List.filter_In in H as [_ Hf]. exact Hf.
  - intros [Hc Hf]. apply list_elem_of_In, List.filter_In.
    split; [|exact Hf]. apply list_elem_of_In. by apply cached_values.
  - apply findFirst_Some in H as [Hin _]. by apply cached_values.
  - apply findFirst_Some in H as [_ Hf]. exact Hf.
  - intros H id g Hg. rewrite findFirst_None in H. apply H.
    apply cached_values. by exists id.
  - intros H. apply findFirst_None. intros g Hin.
    apply cached_values in Hin as [id Hid]. by apply (H id).
  - apply cached_values.
  - apply cached_values.
Qed.

(** X5: each of the four markers is idempotent: calling SetUnready,
    SetReady, SetUnavailable or SetAvailable a second time with the same
    id changes nothing. *)
Theorem X5_markers_idempotent c p :
  SetUnready (SetUnready c p) p = SetUnready c p /\
  SetReady (SetReady c p) p = SetReady c p /\
  SetUnavailable (SetUnavailable c p) p = SetUnavailable c p /\
  SetAvailable (SetAvailable c p) p = SetAvailable c p.
Proof.
  unfold SetUnready, SetReady, SetUnavailable, SetAvailable, Remove; simpl.
  rewrite !insert_insert_eq, !delete_delete_eq. repeat split.
Qed.

End GuildCacheMore.

(** ** Member chunking: delivery, completion, opening and cancelling *)

Section ChunkingMore.

Import Chunking.

Implicit Types (w : World) (request : chunkingRequest)
  (payload : GatewayEventGuildMembersChunk) (st : chanState).






(** X9: cleanupRequest cannot run twice on the same request: the second
    run closes a closed channel and panics. So the cancel function
    panics when it is called a second time, or after the last chunk has
    retired the request. *)
Theorem X9_second_cleanup_panics request w w' :
  cleanupRequest request w = Returned tt w' ->
  cleanupRequest request w' = Panicked w'.
Proof.
  unfold cleanupRequest, bind, chanClose.
  destruct (chans w !! memberChan request) as [st|]; [|discriminate].
  destruct (closed st); [discriminate|].
  unfold modify. intros [= <-]. simpl.
  rewrite lookup_insert_eq. reflexivity.
Qed.



Lemma pickNonce_fresh draws (reqs : gmap string chunkingRequest) n :
  pickNonce draws reqs = Some n -> reqs !! n = None /\ n ∈ draws.
Proof.
  induction draws as [|d draws IH]; simpl; [discriminate|].
  destruct (reqs !! d) eqn:Hd.
  - intros H. destruct (IH H) as [Hn Hin]. split; [exact Hn | by right].
  - intros [= <-]. split; [exact Hd | left].
Qed.

(** What a call of [requestGuildMembersChan] that hands out a cancel
    function has done. *)
Lemma requestGuildMembersChan_opened shard draws guildID query limit userIDs filter
    w o w' request :
  requestGuildMembersChan shard draws guildID query limit userIDs filter w
    = Returned o w' ->
  opened_cancel o = Some request ->
  chunkingRequests w !! nonce request = None /\
  nonce request ∈ draws /\
  chunkingRequests w' = <[nonce request := request]> (chunkingRequests w) /\
  chunks request = 0 /\
  memberFilterFunc request = filter /\
  opened_chan o = Some (memberChan request) /\
  chans w' !! memberChan request = Some {| received := []; closed := false |} /\
  (exists sh, shard = inr sh /\ opened_err o = sendError sh /\
     commands w' = commands w ++
       [{| cmd_GuildID := guildID; cmd_Query := query; cmd_Limit := limit;
           cmd_Presences := hasGuildPresences sh; cmd_UserIDs := userIDs;
           cmd_Nonce := nonce request |}]).
Proof.
  unfold requestGuildMembersChan.
  destruct shard as [err|sh]; [intros [= <- <-]; discriminate|].
  destruct (hasGuildMembers sh); simpl; [|intros [= <- <-]; discriminate].
  unfold bind at 1. unfold gets at 1.
  destruct (pickNonce draws (chunkingRequests w)) as [n|] eqn:Hpick; [|discriminate].
  apply pickNonce_fresh in Hpick as [Hfresh Hin].
  unfold bind, chanMake, modify, ret, setRequests. simpl.
  intros [= <- <-]. simpl. intros [= <-]. simpl.
  repeat split; auto.
  - apply lookup_insert_eq.
  - exists sh. repeat split.
Qed.

(** X10: a request that is opened (a cancel function is handed out) is
    registered under a nonce that was not a key of the pending map, so
    every request that was pending stays as it was and no two pending
    requests share a nonce; it starts with no chunk received and a new,
    open, empty channel, and its command carries the nonce. The error
    returned is the one of Send: when Send fails the request stays
    registered all the same, until it is cancelled. *)
Theorem X10_open_registers_fresh_nonce shard draws guildID query limit userIDs filter
    w o w' request :
  requestGuildMembersChan shard draws guildID query limit userIDs filter w
    = Returned o w' ->
  opened_cancel o = Some request ->
  chunkingRequests w !! nonce request = None /\
  nonce request ∈ draws /\
  chunkingRequests w' = <[nonce request := request]> (chunkingRequests w) /\
  chunks request = 0 /\
  memberFilterFunc request = filter /\
  opened_chan o = Some (memberChan request) /\
  chans w' !! memberChan request = Some {| received := []; closed := false |} /\
  (exists sh, shard = inr sh /\ opened_err o = sendError sh /\
     commands w' = commands w ++
       [{| cmd_GuildID := guildID; cmd_Query := query; cmd_Limit := limit;
           cmd_Presences := hasGuildPresences sh; cmd_UserIDs := userIDs;
           cmd_Nonce := nonce request |}]).
Proof.
  exact (requestGuildMembersChan_opened shard draws guildID query limit userIDs filter
           w o w' request).
Qed.

(** X11: cancelling a request right after it was opened returns, closes
    its channel with nothing delivered and leaves the pending map exactly
    as it was before the request was opened. *)
Theorem X11_open_then_cancel shard draws guildID query limit userIDs filter
    w o w' request :
  requestGuildMembersChan shard draws guildID query limit userIDs filter w
    = Returned o w' ->
  opened_cancel o = Some request ->
  exists w'',
    cleanupRequest request w' = Returned tt w'' /\
    chunkingRequests w'' = chunkingRequests w /\
    chans w'' !! memberChan request = Some {| received := []; closed := true |}.
Proof.
  intros Hopen Hcancel.
  destruct (requestGuildMembersChan_opened _ _ _ _ _ _ _ _ _ _ _ Hopen Hcancel)
    as (Hfresh & _ & Hreqs & _ & _ & _ & Hch & _).
  unfold cleanupRequest, bind, chanClose. rewrite Hch. simpl.
  eexists. split; [reflexivity|]. simpl. split.
  - rewrite Hreqs. by apply delete_insert_id.
  - apply lookup_insert_eq.
Qed.




Lemma X9_witness :
  cleanupRequest ChunkingSamples.openedRequest ChunkingRuns.pending
    = Returned tt ChunkingSamples.cancelled /\
  cleanupRequest ChunkingSamples.openedRequest ChunkingSamples.cancelled
    = Panicked ChunkingSamples.cancelled.
Proof.
  assert (H : cleanupRequest ChunkingSamples.openedRequest ChunkingRuns.pending
              = Returned tt ChunkingSamples.cancelled) by reflexivity.
  split; [exact H | exact (X9_second_cleanup_panics _ _ _ H)].
Defined.

Lemma X10_witness :
  chunkingRequests NewMemberChunkingManager !! "n1" = None /\
  chunkingRequests ChunkingRuns.pending
    = <["n1" := ChunkingSamples.openedRequest]> (chunkingRequests NewMemberChunkingManager).
Proof.
  destruct (X10_open_registers_fresh_nonce (inr ChunkingSamples.guildShard) ["n1"] 5%N
              (Some "") (Some 0) [] None NewMemberChunkingManager
              {| opened_chan := Some 0%nat;
                 opened_cancel := Some ChunkingSamples.openedRequest;
                 opened_err := None |}
              ChunkingRuns.pending ChunkingSamples.openedRequest)
    as (Hfresh & _ & Hreqs & _); [reflexivity | reflexivity |].
  split; [exact Hfresh | exact Hreqs].
Defined.

Lemma X11_witness :
  exists w'',
    cleanupRequest ChunkingSamples.openedRequest ChunkingRuns.pending = Returned tt w'' /\
    chunkingRequests w'' = chunkingRequests NewMemberChunkingManager /\
    chans w'' !! 0%nat = Some {| received := []; closed := true |}.
Proof.
  apply (X11_open_then_cancel (inr ChunkingSamples.guildShard) ["n1"] 5%N
           (Some "") (Some 0) [] None NewMemberChunkingManager
           {| opened_chan := Some 0%nat;
              opened_cancel := Some ChunkingSamples.openedRequest;
              opened_err := None |}
           ChunkingRuns.pending ChunkingSamples.openedRequest); reflexivity.
Defined.

End ChunkingMore.

(** ** Gateway: the listen loop, closing, reopening and reconnecting *)

Section GatewayMore.

Import Gateway.

Implicit Types (e : Env) (w : World) (g : gatewayImpl).

Ltac go_unfold :=
  unfold handleEvent, handleReadError, identify, resume, sendHeartbeat, Send, send,
    Open, Close, CloseWithCode, heartbeat, lock, unlock, getG, modG, emit, gets,
    modify, bind, ret, panic, block in *.

(** *** connMu is taken and released in pairs *)

Lemma keeps_ret {A} (a : A) P : keeps P (ret a) P.
Proof. intros w Hw. exact Hw. Qed.

Lemma keeps_bind {A B} (m : M World A) (k : A -> M World B) P Q R :
  keeps P m Q -> (forall a, keeps Q (k a) R) -> keeps P (bind m k) R.
Proof.
  intros Hm Hk w Hw. unfold bind. specialize (Hm w Hw).
  destruct (m w) as [a w1| |]; try contradiction.
  exact (Hk a w1 Hm).
Qed.

Lemma keeps_getG {A} (f : gatewayImpl -> A) P : keeps P (getG f) P.
Proof. intros w Hw. exact Hw. Qed.

Lemma keeps_emit ef P : keeps P (emit ef) P.
Proof. intros w Hw. exact Hw. Qed.

Lemma keeps_modG (f : gatewayImpl -> gatewayImpl) P :
  (forall g, connMu (f g) = connMu g) -> keeps P (modG f) P.
Proof. intros Hf w Hw. simpl. rewrite Hf. exact Hw. Qed.

Lemma keeps_lock : keeps false lock true.
Proof. intros w Hw. unfold lock. rewrite Hw. reflexivity. Qed.

Lemma keeps_unlock P : keeps P unlock false.
Proof. intros w Hw. reflexivity. Qed.

Ltac keeps_step :=
  cbv beta zeta;
  match goal with
  | |- keeps _ (bind _ _) _ => eapply keeps_bind; [|intros ?]
  | |- keeps _ (ret _) _ => apply keeps_ret
  | |- keeps _ (getG _) _ => apply keeps_getG
  | |- keeps _ (emit _) _ => apply keeps_emit
  | |- keeps _ (modG _) _ => apply keeps_modG; intros []; reflexivity
  | |- keeps _ lock _ => apply keeps_lock
  | |- keeps _ unlock _ => apply keeps_unlock
  | |- keeps _ (match ?x with _ => _ end) _ => destruct x
  end.


Lemma keeps_send e messageType data : keeps false (send e messageType data) false.
Proof. unfold send. repeat keeps_step. Qed.

Lemma keeps_Send e op d : keeps false (Send e op d) false.
Proof.
  unfold Send. destruct (jsonMarshal e op d); [apply keeps_ret | apply keeps_send].
Qed.


Lemma keeps_identify e : keeps false (identify e) false.
Proof. unfold identify. repeat first [apply keeps_Send | keeps_step]. Qed.







(** *** Closing and reopening *)

Lemma CloseWithCode_closed code message w :
  connMu (gw w) = false ->
  conn (gw (finalState (CloseWithCode code message w))) = None /\
  heartbeatTicker (gw (finalState (CloseWithCode code message w))) = None /\
  connMu (gw (finalState (CloseWithCode code message w))) = false.
Proof.
  intros Hmu. destruct w as [g tr].
  destruct g as [cfg h tok cn mu tk st hi ls lr]; simpl in *; subst mu.
  go_unfold. simpl.
  destruct tk as [tk|]; simpl; destruct cn as [cn|]; simpl;
    try destruct ((code =? CloseNormalClosure) || (code =? CloseGoingAway));
    simpl; auto.
Qed.

Lemma CloseWithCode_nothing_to_close code message w :
  conn (gw w) = None ->
  heartbeatTicker (gw w) = None ->
  connMu (gw w) = false ->
  CloseWithCode code message w = Returned tt w.
Proof.
  intros Hc Htk Hmu. destruct w as [g tr].
  destruct g as [cfg h tok cn mu tk st hi ls lr]; simpl in *; subst.
  reflexivity.
Qed.

(** X13: after CloseWithCode, with any code, Open with a dial that
    succeeds returns nil: it stores the new connection, resets the rate
    limiter, starts one listener and leaves the status at WaitingForHello;
    the configuration is what the close left. Open never answers
    already-connected after a close. *)
Theorem X13_close_then_open e code message w c :
  connMu (gw w) = false ->
  dial e = inr c ->
  Open e (finalState (CloseWithCode code message w)) =
    Returned None
      {| gw := withStatus StatusWaitingForHello
                 (withConn (Some c)
                    (withLastSent (now e)
                       (gw (finalState (CloseWithCode code message w)))));
         trace := trace (finalState (CloseWithCode code message w))
                    ++ [EffDial; EffRateLimiterReset; EffGoListen c] |}.
Proof.
  intros Hmu Hd.
  destruct (CloseWithCode_closed code message w Hmu) as (Hc & _ & Hmu1).
  exact (Open_success e _ c Hc Hmu1 Hd).
Qed.

(** X14: CloseWithCode is idempotent: a second close, with any code,
    returns without any effect and leaves the gateway exactly as the
    first close left it. In particular no second close frame is written
    and a graceful second close does not clear session data that the
    first one kept. *)
Theorem X14_second_close_does_nothing code1 message1 code2 message2 w :
  connMu (gw w) = false ->
  CloseWithCode code2 message2 (finalState (CloseWithCode code1 message1 w))
    = Returned tt (finalState (CloseWithCode code1 message1 w)).
Proof.
  intros Hmu.
  destruct (CloseWithCode_closed code1 message1 w Hmu) as (Hc & Htk & Hmu1).
  by apply CloseWithCode_nothing_to_close.
Qed.

(** X15: after CloseWithCode every Send (of a payload that encodes)
    returns ErrShardNotConnected and writes nothing, and a tick of the
    heartbeat loop only records the time: it writes nothing, closes
    nothing and starts no reconnect. *)
Theorem X15_closed_gateway_sends_nothing e code message w op d data :
  connMu (gw w) = false ->
  jsonMarshal e op d = inr data ->
  Send e op d (finalState (CloseWithCode code message w))
    = Returned (Some ErrShardNotConnected) (finalState (CloseWithCode code message w)) /\
  (forall beat,
     jsonMarshal e GatewayOpcodeHeartbeat
       (DataHeartbeat (LastSequenceReceived
          (config (gw (finalState (CloseWithCode code message w)))))) = inr beat ->
     sendHeartbeat e (finalState (CloseWithCode code message w))
       = Returned tt
           {| gw := withLastSent (now e) (gw (finalState (CloseWithCode code message w)));
              trace := trace (finalState (CloseWithCode code message w)) |}).
Proof.
  intros Hmu Hm.
  destruct (CloseWithCode_closed code message w Hmu) as (Hc & _ & Hmu1).
  set (w1 := finalState (CloseWithCode code message w)) in *.
  split.
  - rewrite (Send_run e op d data w1 Hmu1 Hm), Hc. reflexivity.
  - intros beat Hb. unfold sendHeartbeat.
    unfold bind at 1. unfold getG, gets at 1.
    unfold bind at 1. rewrite (Send_run e _ _ beat w1 Hmu1 Hb), Hc.
    destruct (decide (ErrShardNotConnected = ErrShardNotConnected)); [|congruence].
    reflexivity.
Qed.

(** *** Dispatch frames *)

Lemma dispatch_step e event w :
  isDispatch event = true ->
  exists w',
    handleEvent e event w = Returned Continue w' /\
    trace w' = trace w ++
      (if forwards e event then [handlerCall (ShardID (config (gw w))) event] else []) /\
    LastSequenceReceived (config (gw w')) = Some (S event) /\
    ShardID (config (gw w')) = ShardID (config (gw w)).
Proof.
  unfold isDispatch, forwards, handlerCall, dispatchData, handleEvent.
  destruct (Op event); try discriminate.
  destruct (D event) as [| data | | | | | |]; try discriminate. intros _.
  destruct w as [g tr]. destruct g as [cfg h tok cn mu tk st hi ls lr].
  go_unfold. simpl.
  destruct (decide (T event = GatewayEventTypeReady)) as [Ht|Ht]; simpl.
  - destruct (readySessionID e data) as [sid|]; simpl.
    + eexists. split; [reflexivity|]. simpl. repeat split.
    + eexists. split; [reflexivity|]. simpl. rewrite app_nil_r. repeat split.
  - eexists. split; [reflexivity|]. simpl. repeat split.
Qed.

Lemma listen_dispatches e cn events : forall w,
  Forall (fun event => isDispatch event = true) events ->
  exists w',
    listen e cn (Parsed <$> events) w = Returned Continue w' /\
    trace w' = trace w ++
      (handlerCall (ShardID (config (gw w))) <$> List.filter (forwards e) events) /\
    LastSequenceReceived (config (gw w')) =
      match last events with
      | Some event => Some (S event)
      | None => LastSequenceReceived (config (gw w))
      end.
Proof.
  induction events as [|event events IH]; intros w Hall.
  - exists w. simpl. rewrite app_nil_r. repeat split.
  - apply Forall_cons in Hall as [Hev Hall].
    destruct (dispatch_step e event w Hev) as (w1 & Hrun & Htr & Hseq & Hshard).
    destruct (IH w1 Hall) as (w2 & Hrun2 & Htr2 & Hseq2).
    exists w2. split; [|split].
    + simpl. unfold bind. rewrite Hrun. exact Hrun2.
    + rewrite Htr2, Htr, Hshard. simpl.
      destruct (forwards e event); simpl; rewrite <- app_assoc; reflexivity.
    + rewrite Hseq2, last_cons. destruct (last events); [reflexivity | exact Hseq].
Qed.

(** X16: on a run of Dispatch frames the listener stores the sequence
    number of each frame before it forwards it, so that afterwards the
    stored sequence is the one of the last frame read; it calls the event
    handler once per frame, in read order, with the frame's type,
    sequence, the shard id and the raw payload, leaving out only a READY
    whose payload does not parse. No frame is written and the loop goes
    on. *)
Theorem X16_dispatch_run e cn events w :
  Forall (fun event => isDispatch event = true) events ->
  exists w',
    listen e cn (Parsed <$> events) w = Returned Continue w' /\
    trace w' = trace w ++
      (handlerCall (ShardID (config (gw w))) <$> List.filter (forwards e) events) /\
    LastSequenceReceived (config (gw w')) =
      match last events with
      | Some event => Some (S event)
      | None => LastSequenceReceived (config (gw w))
      end.
Proof. exact (listen_dispatches e cn events w). Qed.

(** X17: a READY dispatch whose payload parses makes the session
    resumable: it stores the frame's sequence and the session id of the
    payload and sets the status to Ready; a Hello handled after it, on the
    same connection, is answered with Resume carrying exactly that session
    id and sequence. *)
Theorem X17_ready_then_hello_resumes e e' ready hello ms data sid c frame w :
  Op ready = GatewayOpcodeDispatch ->
  D ready = DataDispatch data ->
  T ready = GatewayEventTypeReady ->
  readySessionID e data = Some sid ->
  Op hello = GatewayOpcodeHello ->
  D hello = DataHello ms ->
  conn (gw w) = Some c ->
  connMu (gw w) = false ->
  rlWait e' = None ->
  jsonMarshal e' GatewayOpcodeResume (DataResume (token (gw w)) sid (S ready))
    = inr frame ->
  status (gw (finalState (handleEvent e ready w))) = StatusReady /\
  SessionID (config (gw (finalState (handleEvent e ready w)))) = Some sid /\
  LastSequenceReceived (config (gw (finalState (handleEvent e ready w))))
    = Some (S ready) /\
  written (trace (finalState (handleEvent e' hello (finalState (handleEvent e ready w)))))
    = written (trace (finalState (handleEvent e ready w)))
      ++ [EffWriteMessage c TextMessage frame].
Proof.
  intros Hop Hd Ht Hsid Hhop Hhd Hc Hmu Hrl Hm.
  assert (Hrun : handleEvent e ready w =
            Returned Continue
              {| gw := withStatus StatusReady
                         (withConfig (setSession (Some sid) (Some (S ready))) (gw w));
                 trace := trace w ++
                   [EffEventHandler (T ready) (S ready) (ShardID (config (gw w))) data] |}).
  { destruct w as [g tr]. destruct g as [cfg h tok cn mu tk st hi ls lr].
    destruct cfg as [sh shc sid0 seq0 ar mr gi cp lt pr os br dv].
    unfold handleEvent. rewrite Hop, Hd. go_unfold. simpl.
    destruct (decide (T ready = GatewayEventTypeReady)); [|contradiction].
    simpl. rewrite Hsid. reflexivity. }
  rewrite Hrun. simpl. repeat split.
  match goal with
  | |- context [handleEvent e' hello ?w1] =>
      destruct (hello_resumes e' w1 hello ms c sid (S ready) frame) as [-> _];
        simpl; auto
  end.
  rewrite (written_app _ [_; _; _; _]). reflexivity.
Qed.

(** X18: a Reconnect frame and an InvalidSession frame both end the
    listen loop with the connection closed (handle dropped, ticker
    stopped) and exactly one reconnect started. Session id and sequence
    survive, except after an InvalidSession that is not resumable, which
    clears both. *)
Theorem X18_server_asks_to_reconnect e event w :
  connMu (gw w) = false ->
  wellTyped event = true ->
  Op event = GatewayOpcodeReconnect \/ Op event = GatewayOpcodeInvalidSession ->
  returned (handleEvent e event w) = Some Break /\
  conn (gw (finalState (handleEvent e event w))) = None /\
  heartbeatTicker (gw (finalState (handleEvent e event w))) = None /\
  reconnects (trace (finalState (handleEvent e event w)))
    = (reconnects (trace w) + 1)%nat /\
  config (gw (finalState (handleEvent e event w))) =
    match Op event, D event with
    | GatewayOpcodeInvalidSession, DataInvalidSession false =>
        setSession None None (config (gw w))
    | _, _ => config (gw w)
    end.
Proof.
  intros Hmu Hwt Hop. unfold wellTyped in Hwt. destruct w as [g tr].
  destruct g as [cfg h tok cn mu tk st hi ls lr]; simpl in *; subst mu.
  destruct cfg as [sh shc sid0 seq0 ar mr gi cp lt pr os br dv].
  unfold handleEvent.
  destruct Hop as [Hop|Hop]; rewrite Hop in *.
  - go_unfold. simpl.
    destruct tk as [tk|]; simpl; destruct cn as [cn|]; simpl;
      rewrite ?reconnects_app; unfold reconnects; simpl;
      repeat split; lia.
  - destruct (D event) as [| | | | | canResume | |]; try discriminate.
    go_unfold. simpl.
    destruct canResume; simpl;
      destruct tk as [tk|]; simpl; destruct cn as [cn|]; simpl;
      rewrite ?reconnects_app; unfold reconnects; simpl;
      repeat split; lia.
Qed.

(** *** Leaving the loop *)

Lemma nc_bind {A} (m : M World A) (k : A -> M World LoopCtl) :
  (forall a, neverContinues (k a)) -> neverContinues (bind m k).
Proof.
  intros Hk w w'. unfold bind. destruct (m w) as [a w1| |]; try discriminate.
  apply Hk.
Qed.

Lemma nc_ret ctl : ctl <> Continue -> neverContinues (ret ctl).
Proof. intros Hne w w' [= H]. contradiction. Qed.

Lemma nc_panic : neverContinues panic.
Proof. intros w w'. discriminate. Qed.

Lemma stops_neverContinues e cn r :
  stops r = true -> neverContinues (listenStep e cn r).
Proof.
  destruct r as [err| |event]; simpl; try discriminate.
  - intros _. unfold handleReadError.
    apply nc_bind; intros _. apply nc_bind; intros c. apply nc_bind; intros _.
    destruct (negb (bool_decide (c = Some cn))); [by apply nc_ret|].
    apply nc_bind; intros _. apply nc_bind; intros auto.
    apply nc_bind; intros _. by apply nc_ret.
  - unfold handleEvent. destruct (Op event); try discriminate; intros _.
    + apply nc_bind; intros _. apply nc_bind; intros _. by apply nc_ret.
    + destruct (D event); try apply nc_panic.
      apply nc_bind; intros _. apply nc_bind; intros _.
      apply nc_bind; intros _. by apply nc_ret.
Qed.

(** X19: a read error, a Reconnect frame and an InvalidSession frame end
    the listen loop in every state: whatever is read after them on that
    connection is not handled, the outcome is the one of that single
    step. *)
Theorem X19_listen_stops e cn r rest w :
  stops r = true ->
  listen e cn (r :: rest) w = listenStep e cn r w.
Proof.
  intros Hstop. pose proof (stops_neverContinues e cn r Hstop w) as Hnc.
  simpl. unfold bind.
  destruct (listenStep e cn r w) as [[| |] w1| |]; try reflexivity.
  exfalso. exact (Hnc w1 eq_refl).
Qed.

(** *** Read errors *)

(** X20: a read error on a connection that is no longer the gateway's
    (the gateway was closed, or holds another connection by now) makes the
    listener return without any effect: nothing is closed, no reconnect is
    started, the close handler is not called, the gateway is unchanged. *)
Theorem X20_read_error_on_stale_connection e cn err w :
  conn (gw w) <> Some cn ->
  connMu (gw w) = false ->
  handleReadError e cn err w = Returned Return w.
Proof.
  intros Hc Hmu. destruct w as [g tr].
  destruct g as [cfg h tok c mu tk st hi ls lr]; simpl in *; subst mu.
  go_unfold. simpl. rewrite bool_decide_eq_false_2 by exact Hc. reflexivity.
Qed.

Lemma reconnectTry_already_connected answers ctxErr try delay w c :
  conn (gw w) = Some c ->
  connMu (gw w) = false ->
  try < wrap64 (MaxReconnectTries (config (gw w)) - 1) ->
  ctxErr try = None ->
  reconnectTry answers ctxErr try delay w
    = Returned (Some ErrGatewayAlreadyConnected) w.
Proof.
  intros Hc Hmu Htry Hctx. unfold reconnectTry. simpl.
  unfold bind at 1. unfold getG, gets at 1.
  destruct (Z.geb_spec try (wrap64 (MaxReconnectTries (config (gw w)) - 1))); [lia|].
  rewrite Hctx. unfold bind.
  destruct w as [g tr].
  destruct g as [cfg h tok cn mu tk st hi ls lr]; simpl in *; subst.
  reflexivity.
Qed.

(** X21: when a read on the gateway's own connection fails and
    reconnecting is allowed (AutoReconnect set; a close code for which
    ShouldReconnect holds, or an error that is no close frame), the
    listener starts exactly one reconnect and leaves the loop, but it does
    not close or drop the connection handle. The reconnect that runs on
    this state, with tries left and its context alive, therefore gets
    ErrGatewayAlreadyConnected from Open at its first attempt and gives
    up without dialling. *)
Theorem X21_auto_reconnect_finds_connection e cn err answers ctxErr w :
  conn (gw w) = Some cn ->
  connMu (gw w) = false ->
  AutoReconnect (config (gw w)) = true ->
  reconnectAllowed e err = true ->
  0 < wrap64 (MaxReconnectTries (config (gw w)) - 1) ->
  ctxErr 0 = None ->
  returned (handleReadError e cn err w) = Some Break /\
  conn (gw (finalState (handleReadError e cn err w))) = Some cn /\
  reconnects (trace (finalState (handleReadError e cn err w)))
    = (reconnects (trace w) + 1)%nat /\
  reconnectTry answers ctxErr 0 Second (finalState (handleReadError e cn err w))
    = Returned (Some ErrGatewayAlreadyConnected)
        (finalState (handleReadError e cn err w)).
Proof.
  intros Hc Hmu Hauto Hallowed Hmax Hctx.
  assert (Hrun : exists cfg',
            handleReadError e cn err w =
              Returned Break {| gw := withConfig (fun _ => cfg') (gw w);
                                trace := trace w ++ [EffGoReconnect] |} /\
            MaxReconnectTries cfg' = MaxReconnectTries (config (gw w))).
  { destruct w as [g tr].
    destruct g as [cfg h tok c mu tk st hi ls lr]; simpl in *; subst.
    destruct cfg as [sh shc sid0 seq0 ar mr gi cp lt pr os br dv]; simpl in *; subst.
    go_unfold. simpl. rewrite bool_decide_eq_true_2 by reflexivity. simpl.
    destruct err as [code text| |]; simpl in *; try discriminate.
    - rewrite Hallowed.
      destruct (code =? GatewayCloseEventCodeDisallowedIntents); simpl;
        [|destruct (code =? GatewayCloseEventCodeInvalidSeq); simpl];
        eexists; split; reflexivity.
    - eexists; split; reflexivity. }
  destruct Hrun as (cfg' & Hrun & Hmax'). rewrite Hrun. simpl.
  split; [reflexivity|]. split; [exact Hc|].
  split; [rewrite reconnects_app; reflexivity|].
  apply (reconnectTry_already_connected answers ctxErr 0 Second _ cn); simpl; auto.
  rewrite Hmax'. exact Hmax.
Qed.

(** X22: when a read on the gateway's own connection fails and
    reconnecting is not allowed (AutoReconnect off, or a close code for
    which ShouldReconnect does not hold, or the connection was closed
    locally), the listener closes the gateway with CloseNormalClosure:
    the handle is dropped, the ticker stopped, session id and sequence
    cleared. No reconnect is started; the close handler is started if and
    only if one is configured; the loop ends. *)
Theorem X22_read_error_without_reconnect e cn err w :
  conn (gw w) = Some cn ->
  connMu (gw w) = false ->
  AutoReconnect (config (gw w)) && reconnectAllowed e err = false ->
  returned (handleReadError e cn err w) = Some Break /\
  conn (gw (finalState (handleReadError e cn err w))) = None /\
  heartbeatTicker (gw (finalState (handleReadError e cn err w))) = None /\
  config (gw (finalState (handleReadError e cn err w)))
    = setSession None None (config (gw w)) /\
  reconnects (trace (finalState (handleReadError e cn err w))) = reconnects (trace w) /\
  trace (finalState (handleReadError e cn err w)) =
    trace w
    ++ match heartbeatTicker (gw w) with
       | Some tk => [EffTickerStop tk]
       | None => []
       end
    ++ [EffRateLimiterClose;
        EffWriteClose cn CloseNormalClosure "Shutting down";
        EffConnClose cn]
    ++ (if hasCloseHandler (gw w) then [EffGoCloseHandler] else []).
Proof.
  intros Hc Hmu Hno. destruct w as [g tr].
  destruct g as [cfg h tok c mu tk st hi ls lr]; simpl in *; subst.
  destruct cfg as [sh shc sid0 seq0 ar mr gi cp lt pr os br dv]; simpl in *.
  go_unfold. simpl. rewrite bool_decide_eq_true_2 by reflexivity. simpl.
  destruct err as [code text| |]; simpl in *;
    try destruct (code =? GatewayCloseEventCodeDisallowedIntents); simpl;
    try destruct (code =? GatewayCloseEventCodeInvalidSeq); simpl;
    rewrite ?Hno; simpl;
    try (rewrite andb_true_r in Hno; subst ar; simpl);
    destruct tk as [tk|]; simpl; destruct h; simpl;
    rewrite ?reconnects_app; unfold reconnects; simpl;
    rewrite <- ?app_assoc; simpl; repeat split; lia.
Qed.

(** *** Reconnecting *)

Lemma dials_app (tr1 tr2 : list Effect) :
  dials (tr1 ++ tr2) = (dials tr1 + dials tr2)%nat.
Proof. unfold dials. rewrite List.filter_app, length_app. reflexivity. Qed.

(** [Open] returns nil or ErrGatewayAlreadyConnected (the gateway
    untouched), or it does not return at all; it dials at most once and
    never sets the status to Disconnected. *)
Lemma Open_cases e w :
  match Open e w with
  | Returned None w' => True
  | Returned (Some er) w' => er = ErrGatewayAlreadyConnected /\ w' = w
  | Blocked _ => True
  | Panicked _ => False
  end /\
  (dials (trace (finalState (Open e w))) <= dials (trace w) + 1)%nat /\
  (status (gw (finalState (Open e w))) = StatusDisconnected ->
   status (gw w) = StatusDisconnected).
Proof.
  destruct w as [g tr].
  destruct g as [cfg h tok cn mu tk st hi ls lr].
  go_unfold. simpl.
  destruct mu; simpl; [repeat split; auto; lia|].
  destruct cn as [cn|]; simpl; [repeat split; auto; lia|].
  destruct (dial e) as [er|c]; simpl.
  - destruct tk as [tk|]; simpl; rewrite ?dials_app; unfold dials; simpl;
      repeat split; try lia; discriminate.
  - rewrite ?dials_app; unfold dials; simpl. repeat split; try lia; discriminate.
Qed.

(** One level of [reconnectTry], by cases. *)
Lemma reconnectTryFuel_step fuel answers ctxErr try delay w :
  reconnectTryFuel (Datatypes.S fuel) answers ctxErr try delay w =
    if try >=? wrap64 (MaxReconnectTries (config (gw w)) - 1)
    then Returned (Some (ErrMaxTries (MaxReconnectTries (config (gw w))))) w
    else
      match ctxErr try with
      | Some err => Returned (Some err) w
      | None =>
          match Open (answers try) w with
          | Returned None w1 => Returned None w1
          | Returned (Some er) w1 =>
              if decide (er = ErrGatewayAlreadyConnected)
              then Returned (Some er) w1
              else reconnectTryFuel fuel answers ctxErr (wrap64 (try + 1)) delay
                     {| gw := withStatus StatusDisconnected (gw w1); trace := trace w1 |}
          | Blocked w1 => Blocked w1
          | Panicked w1 => Panicked w1
          end
      end.
Proof.
  cbn [reconnectTryFuel]. unfold bind at 1. unfold getG, gets.
  destruct (try >=? wrap64 (MaxReconnectTries (config (gw w)) - 1)); [reflexivity|].
  destruct (ctxErr try); [reflexivity|].
  unfold bind at 1.
  destruct (Open (answers try) w) as [[er|] w1| |]; try reflexivity.
  destruct (decide (er = ErrGatewayAlreadyConnected)); reflexivity.
Qed.

(** The recursive call of [reconnectTry] is never reached: one unit of
    fuel gives the same outcome as any larger amount. *)
Lemma reconnectTryFuel_one fuel answers ctxErr try delay w :
  reconnectTryFuel (Datatypes.S fuel) answers ctxErr try delay w
    = reconnectTryFuel 1 answers ctxErr try delay w.
Proof.
  rewrite !reconnectTryFuel_step.
  destruct (try >=? wrap64 (MaxReconnectTries (config (gw w)) - 1)); [reflexivity|].
  destruct (ctxErr try); [reflexivity|].
  destruct (Open_cases (answers try) w) as (Hcase & _).
  destruct (Open (answers try) w) as [[er|] w1| |]; try reflexivity.
  destruct Hcase as [-> ->].
  destruct (decide (ErrGatewayAlreadyConnected = ErrGatewayAlreadyConnected));
    [reflexivity | congruence].
Qed.

Lemma reconnectTry_final answers ctxErr try delay w :
  finalState (reconnectTry answers ctxErr try delay w) = w \/
  finalState (reconnectTry answers ctxErr try delay w)
    = finalState (Open (answers try) w).
Proof.
  unfold reconnectTry. rewrite reconnectTryFuel_step.
  destruct (try >=? wrap64 (MaxReconnectTries (config (gw w)) - 1)); [by left|].
  destruct (ctxErr try); [by left|].
  destruct (Open_cases (answers try) w) as (Hcase & _).
  destruct (Open (answers try) w) as [[er|] w1| |]; try (by right).
  destruct Hcase as [-> ->].
  destruct (decide (ErrGatewayAlreadyConnected = ErrGatewayAlreadyConnected));
    [by left | congruence].
Qed.

(** X23: reconnectTry dials at most once, whatever the outside answers
    and however many tries are configured: a successful dial ends it, a
    gateway that holds a connection ends it with
    ErrGatewayAlreadyConnected, and a refused dial does not come back from
    Open. The retry after a failed attempt is never reached, and the
    status is never set to Disconnected. *)
Theorem X23_reconnect_dials_at_most_once answers ctxErr try delay w :
  (dials (trace (finalState (reconnectTry answers ctxErr try delay w)))
     <= dials (trace w) + 1)%nat /\
  (status (gw (finalState (reconnectTry answers ctxErr try delay w)))
     = StatusDisconnected ->
   status (gw w) = StatusDisconnected).
Proof.
  destruct (reconnectTry_final answers ctxErr try delay w) as [-> | ->].
  - split; [lia | auto].
  - destruct (Open_cases (answers try) w) as (_ & Hd & Hs). split; assumption.
Qed.

(** X24: reconnectTry attempts nothing once try has reached
    MaxReconnectTries-1: it returns the max-tries error at once, without
    waiting, dialling or touching the gateway. With MaxReconnectTries of 1
    (or less) reconnect therefore never makes an attempt. *)
Theorem X24_no_attempt_at_max_tries answers ctxErr try delay w :
  wrap64 (MaxReconnectTries (config (gw w)) - 1) <= try ->
  reconnectTry answers ctxErr try delay w
    = Returned (Some (ErrMaxTries (MaxReconnectTries (config (gw w))))) w.
Proof.
  intros Hmax. unfold reconnectTry. rewrite reconnectTryFuel_step.
  destruct (Z.geb_spec try (wrap64 (MaxReconnectTries (config (gw w)) - 1))); [|lia].
  reflexivity.
Qed.

(** *** The theorems at work on sample runs *)


Lemma X13_witness :
  connMu (gw GatewayRuns.live) = false /\
  dial GatewaySamples.okEnv = inr 1%nat /\
  returned (Open GatewaySamples.okEnv
              (finalState (CloseWithCode CloseServiceRestart "restart" GatewayRuns.live)))
    = Some None.
Proof.
  split; [reflexivity|]. split; [reflexivity|].
  rewrite (X13_close_then_open GatewaySamples.okEnv CloseServiceRestart "restart"
             GatewayRuns.live 1%nat eq_refl eq_refl).
  reflexivity.
Defined.

Lemma X14_witness :
  connMu (gw GatewayRuns.live) = false /\
  SessionID (config (gw (finalState
    (CloseWithCode CloseNormalClosure "Shutting down"
       (finalState (CloseWithCode CloseServiceRestart "restart" GatewayRuns.live))))))
    = Some "session-1".
Proof.
  split; [reflexivity|].
  rewrite (X14_second_close_does_nothing CloseServiceRestart "restart"
             CloseNormalClosure "Shutting down" GatewayRuns.live eq_refl).
  reflexivity.
Defined.

Lemma X15_witness :
  connMu (gw GatewayRuns.live) = false /\
  Send GatewaySamples.okEnv GatewayOpcodePresenceUpdate (DataCommand "online")
    (finalState (CloseWithCode CloseServiceRestart "restart" GatewayRuns.live))
  = Returned (Some ErrShardNotConnected)
      (finalState (CloseWithCode CloseServiceRestart "restart" GatewayRuns.live)).
Proof.
  split; [reflexivity|].
  exact (proj1 (X15_closed_gateway_sends_nothing GatewaySamples.okEnv
                  CloseServiceRestart "restart" GatewayRuns.live
                  GatewayOpcodePresenceUpdate (DataCommand "online") "op=3"
                  eq_refl eq_refl)).
Defined.

Lemma X16_witness :
  exists w',
    listen GatewaySamples.okEnv 1%nat
      (Parsed <$> [GatewayRuns.ready; GatewayRuns.guildCreate; GatewayRuns.messageCreate])
      GatewaySamples.connected = Returned Continue w' /\
    LastSequenceReceived (config (gw w')) = Some 3.
Proof.
  destruct (X16_dispatch_run GatewaySamples.okEnv 1%nat
              [GatewayRuns.ready; GatewayRuns.guildCreate; GatewayRuns.messageCreate]
              GatewaySamples.connected)
    as (w' & Hrun & _ & Hseq); [repeat constructor|].
  exists w'. split; [exact Hrun | exact Hseq].
Defined.

Lemma X17_witness :
  status (gw (finalState (handleEvent GatewaySamples.okEnv GatewayRuns.ready
                            GatewaySamples.connected))) = StatusReady /\
  written (trace (finalState (handleEvent GatewaySamples.okEnv GatewaySamples.hello
    (finalState (handleEvent GatewaySamples.okEnv GatewayRuns.ready
                   GatewaySamples.connected)))))
    = [EffWriteMessage 1%nat TextMessage "op=6"].
Proof.
  pose proof (X17_ready_then_hello_resumes GatewaySamples.okEnv GatewaySamples.okEnv
                GatewayRuns.ready GatewaySamples.hello 41250 "ready-payload"
                "session-1" 1%nat "op=6" GatewaySamples.connected
                eq_refl eq_refl eq_refl eq_refl eq_refl eq_refl eq_refl eq_refl
                eq_refl eq_refl) as (Hst & _ & _ & Hw).
  split; [exact Hst | exact Hw].
Defined.

Lemma X18_witness :
  returned (handleEvent GatewaySamples.okEnv GatewayRuns.invalidSession GatewayRuns.live)
    = Some Break /\
  SessionID (config (gw (finalState
    (handleEvent GatewaySamples.okEnv GatewayRuns.invalidSession GatewayRuns.live))))
    = None.
Proof.
  pose proof (X18_server_asks_to_reconnect GatewaySamples.okEnv
                GatewayRuns.invalidSession GatewayRuns.live eq_refl eq_refl
                (or_intror eq_refl)) as (Hret & _ & _ & _ & Hcfg).
  split; [exact Hret|]. rewrite Hcfg. reflexivity.
Defined.

Lemma X19_witness :
  listen GatewaySamples.okEnv 1%nat
    [Parsed GatewayRuns.reconnectFrame; Parsed GatewayRuns.messageCreate] GatewayRuns.live
  = listenStep GatewaySamples.okEnv 1%nat (Parsed GatewayRuns.reconnectFrame)
      GatewayRuns.live.
Proof.
  apply (X19_listen_stops GatewaySamples.okEnv 1%nat (Parsed GatewayRuns.reconnectFrame)
           [Parsed GatewayRuns.messageCreate] GatewayRuns.live).
  reflexivity.
Defined.

Lemma X20_witness :
  handleReadError GatewaySamples.okEnv 1%nat NetErrClosed
    (finalState (Close GatewayRuns.live))
  = Returned Return (finalState (Close GatewayRuns.live)).
Proof.
  apply (X20_read_error_on_stale_connection GatewaySamples.okEnv 1%nat NetErrClosed
           (finalState (Close GatewayRuns.live))).
  - discriminate.
  - reflexivity.
Defined.

Lemma X21_witness :
  conn (gw (finalState (handleReadError GatewaySamples.okEnv 1%nat
                          (CloseError 4000 "unknown error") GatewayRuns.live)))
    = Some 1%nat /\
  reconnectTry (fun _ => GatewaySamples.okEnv) (fun _ => None) 0 Second
    (finalState (handleReadError GatewaySamples.okEnv 1%nat
                   (CloseError 4000 "unknown error") GatewayRuns.live))
  = Returned (Some ErrGatewayAlreadyConnected)
      (finalState (handleReadError GatewaySamples.okEnv 1%nat
                     (CloseError 4000 "unknown error") GatewayRuns.live)).
Proof.
  pose proof (X21_auto_reconnect_finds_connection GatewaySamples.okEnv 1%nat
                (CloseError 4000 "unknown error")
                (fun _ => GatewaySamples.okEnv) (fun _ => None) GatewayRuns.live
                eq_refl eq_refl eq_refl eq_refl eq_refl eq_refl)
    as (_ & Hc & _ & Hre).
  split; [exact Hc | exact Hre].
Defined.

Lemma X22_witness :
  conn (gw (finalState (handleReadError GatewaySamples.okEnv 1%nat
                          (CloseError 4004 "authentication failed")
                          GatewayRuns.liveNoReconnect))) = None /\
  trace (finalState (handleReadError GatewaySamples.okEnv 1%nat
                       (CloseError 4004 "authentication failed")
                       GatewayRuns.liveNoReconnect))
    = [EffRateLimiterClose; EffWriteClose 1%nat CloseNormalClosure "Shutting down";
       EffConnClose 1%nat; EffGoCloseHandler].
Proof.
  pose proof (X22_read_error_without_reconnect GatewaySamples.okEnv 1%nat
                (CloseError 4004 "authentication failed") GatewayRuns.liveNoReconnect
                eq_refl eq_refl eq_refl) as (_ & Hc & _ & _ & _ & Htr).
  split; [exact Hc | exact Htr].
Defined.

Lemma X24_witness :
  reconnectTry (fun _ => GatewaySamples.okEnv) (fun _ => None) 0 Second
    GatewayRuns.singleTry
  = Returned (Some (ErrMaxTries 1)) GatewayRuns.singleTry.
Proof.
  apply (X24_no_attempt_at_max_tries (fun _ => GatewaySamples.okEnv) (fun _ => None)
           0 Second GatewayRuns.singleTry).
  vm_compute. discriminate.
Defined.

End GatewayMore.

(** ** Slash command options *)

Section SlashFacts.

Import Slash.

Implicit Types (o : Option) (channel : Channel).

(** X25: for an option whose value resolves to a channel, the typed
    views agree with each other: TextChannel and MessageChannel give the
    same answer; exactly one of VoiceChannel, TextChannel, Category and
    StoreChannel gives a channel when GuildChannel does, and none of them
    when it does not (direct-message and group channels); and whatever a
    view gives is the resolved channel itself. *)
Theorem X25_channel_views_agree o channel :
  Channel_ o = Ok (Some channel) ->
  TextChannel o = MessageChannel o /\
  (given (VoiceChannel o) + given (TextChannel o) + given (Category o)
     + given (StoreChannel o) = given (GuildChannel o))%nat /\
  Forall (fun r => r = Ok None \/ r = Ok (Some channel))
    [MessageChannel o; GuildChannel o; VoiceChannel o; TextChannel o; Category o;
     StoreChannel o].
Proof.
  intros Hch.
  unfold MessageChannel, GuildChannel, VoiceChannel, TextChannel, Category, StoreChannel.
  rewrite Hch.
  destruct (Channel_Type channel); simpl;
    (split; [reflexivity|]); (split; [reflexivity|]);
    repeat (constructor; [first [by left | by right]|]); constructor.
Qed.

(** X26: the channel accessors panic exactly when the option's value is
    not a string or the option has no resolved data, and then every typed
    view panics too; an id that is not among the resolved channels is no
    error: every view returns nil. *)
Theorem X26_channel_views_fail_together o :
  (Channel_ o = Panic <-> OptResolved o = None \/ String o = Panic) /\
  (Channel_ o = Panic ->
   Forall (fun r => r = Panic)
     [MessageChannel o; GuildChannel o; VoiceChannel o; TextChannel o; Category o;
      StoreChannel o]) /\
  (Channel_ o = Ok None ->
   Forall (fun r => r = Ok None)
     [MessageChannel o; GuildChannel o; VoiceChannel o; TextChannel o; Category o;
      StoreChannel o]).
Proof.
  unfold MessageChannel, GuildChannel, VoiceChannel, TextChannel, Category, StoreChannel.
  split; [|split].
  - unfold Channel_, Snowflake_. destruct (OptResolved o) as [r|]; simpl.
    + destruct (String o) as [s|]; split.
      * discriminate.
      * intros [H|H]; discriminate.
      * by right.
      * reflexivity.
    + split; [by left | reflexivity].
  - intros ->. repeat constructor.
  - intros ->. repeat constructor.
Qed.

Lemma X25_witness :
  TextChannel {| OptResolved :=
                   Some {| Channels := {["7" := {| Channel_ID := "7";
                                                    Channel_Type := ChannelTypeNews;
                                                    Channel_Name := "news" |}]} |};
                 OptName := "channel"; OptValue := VString "7" |}
  = MessageChannel {| OptResolved :=
                   Some {| Channels := {["7" := {| Channel_ID := "7";
                                                    Channel_Type := ChannelTypeNews;
                                                    Channel_Name := "news" |}]} |};
                 OptName := "channel"; OptValue := VString "7" |}.
Proof.
  apply (X25_channel_views_agree _
           {| Channel_ID := "7"; Channel_Type := ChannelTypeNews;
              Channel_Name := "news" |}).
  vm_compute. reflexivity.
Defined.

End SlashFacts.

(** ** Request options *)

Section RestFacts.

Import Rest.

Implicit Types (c : RequestConfig) (opts : list RequestOpt).

Lemma fold_WithCheck checks : forall c,
  fold_left (fun config opt => opt config) (WithCheck <$> checks) c
  = {| Ctx := Ctx c; Checks := Checks c ++ checks; Delay := Delay c |}.
Proof.
  induction checks as [|check checks IH]; intros c; simpl.
  - rewrite app_nil_r. by destruct c.
  - rewrite IH. simpl. by rewrite <- app_assoc.
Qed.

Lemma Apply_eq c opts c' :
  fold_left (fun config opt => opt config) opts c = c' ->
  Apply c opts =
    match Ctx c' with
    | None => {| Ctx := Some ContextTODO; Checks := Checks c'; Delay := Delay c' |}
    | Some _ => c'
    end.
Proof. intros <-. reflexivity. Qed.

Lemma Apply_snoc c opts (opt : RequestOpt) c' :
  fold_left (fun config opt => opt config) opts c = c' ->
  Apply c (opts ++ [opt]) =
    match Ctx (opt c') with
    | None =>
        {| Ctx := Some ContextTODO; Checks := Checks (opt c'); Delay := Delay (opt c') |}
    | Some _ => opt c'
    end.
Proof. intros <-. apply Apply_eq. rewrite fold_left_app. reflexivity. Qed.

(** X27: Apply never leaves the context nil: after the options have run,
    a missing context is replaced by context.TODO(), also when the last
    option set it to nil. Options run in the order given: checks added by
    WithCheck are appended in that order after the ones already there, and
    a WithCtx or WithDelay at the end overrides what earlier options
    set. *)
Theorem X27_Apply_options c opts checks ctx d :
  Ctx (Apply c opts) <> None /\
  Checks (Apply c (WithCheck <$> checks)) = Checks c ++ checks /\
  Ctx (Apply c (opts ++ [WithCtx (Some ctx)])) = Some ctx /\
  Ctx (Apply c (opts ++ [WithCtx None])) = Some ContextTODO /\
  Delay (Apply c (opts ++ [WithDelay d])) = d.
Proof.
  split; [|split; [|split; [|split]]].
  - rewrite (Apply_eq c opts _ eq_refl).
    generalize (fold_left (fun config opt => opt config) opts c).
    intros [[x|] chk dl]; discriminate.
  - rewrite (Apply_eq c _ _ (fold_WithCheck checks c)). simpl.
    destruct (Ctx c); reflexivity.
  - rewrite (Apply_snoc c opts _ _ eq_refl). reflexivity.
  - rewrite (Apply_snoc c opts _ _ eq_refl). reflexivity.
  - rewrite (Apply_snoc c opts _ _ eq_refl).
    generalize (fold_left (fun config opt => opt config) opts c).
    intros [[x|] chk dl]; reflexivity.
Qed.

End RestFacts.
